(** * Review triage: priority scoring and auto-flagging

    A shallow embedding of the triage path of the reviews API
    ([src/api/integrations.js], class [ReviewsAPI]) together with the
    part of the CRUD base class it runs on ([base.js]: [validateRequired],
    [validateObjectId], [handleFirebaseError], [create], [getById],
    [update], [delete], [batchCreate]), and [unflagReview].

    - JavaScript strings are sequences of UTF-16 code units: [jsstring].
    - Ratings are integer Numbers: [Z].
    - [async] methods are computations over an explicit [World] (the
      document store, the console, the faults the backend will raise)
      that either return or throw. *)

From Stdlib Require Import ZArith List String Ascii Bool Lia.
From stdpp Require Import gmap.

Local Open Scope Z_scope.

(** ** JavaScript strings *)

Definition jsstring := list N.

(** A literal of the source, as its code units. *)
Definition js (s : string) : jsstring :=
  List.map N_of_ascii (list_ascii_of_string s).

(** [s.startsWith(p)], the step of the substring search. *)
Fixpoint startsWith (s p : jsstring) : bool :=
  match p, s with
  | [], _ => true
  | _ :: _, [] => false
  | c :: p', d :: s' => (c =? d)%N && startsWith s' p'
  end.

(** [s.includes(sub)]: [sub] occurs in [s] as a run of code units. *)
Fixpoint includes (s sub : jsstring) : bool :=
  startsWith s sub ||
  match s with
  | [] => false
  | _ :: s' => includes s' sub
  end.

(** [String.prototype.toLowerCase] belongs to the language runtime and
    follows the Unicode case tables; the triage code is modelled over any
    such function, so what is proved of it holds for the runtime's.  So
    does what [parseInt] makes of a Number that prints in exponent form
    (magnitude 1e21 and above): it reads the digits before the point of
    the shortest decimal form of the Number. *)
Class StringBuiltins := {
  toLowerCase : jsstring -> jsstring;
  parseIntExponent : Z -> Z
}.

(** The runtime's [toLowerCase] on texts of code units below 128: only
    [A]..[Z] change.  Used to run the code on the ASCII texts of the
    specification's examples, with ratings below 1e21. *)
Definition lowerUnit (c : N) : N :=
  if ((65 <=? c) && (c <=? 90))%N then (c + 32)%N else c.

(** The first decimal digit of an integer, with its sign.  It is what
    the runtime's [parseInt] reads from an exponent form whenever the
    shortest decimal form of the Number starts with the digit the integer
    itself starts with; a Number just below a power of ten that prints as
    that power (the one nearest 1e23) is the exception.  The examples run
    on ratings below 1e21, where this function is not consulted. *)
Fixpoint leadingDigit (fuel : nat) (n : Z) : Z :=
  match fuel with
  | O => n
  | S fuel' => if n <? 10 then n else leadingDigit fuel' (n / 10)
  end.

Definition firstDigit (n : Z) : Z :=
  Z.sgn n * leadingDigit (Z.to_nat (Z.log2 (Z.abs n))) (Z.abs n).

Definition asciiBuiltins : StringBuiltins :=
  {| toLowerCase := List.map lowerUnit;
     parseIntExponent := firstDigit |}.

(** ** Priority scorer and flag decision (pure part) *)

Definition negativeKeywords : list jsstring :=
  List.map js ["terrible"; "horrible"; "worst"; "awful"; "scam"; "rude";
               "unprofessional"]%string.

Definition urgentKeywords : list jsstring :=
  List.map js ["lawsuit"; "legal"; "health"; "safety"; "discrimination"]%string.

(** The three locals [checkAndFlag] holds when it reaches
    [if (shouldFlag)]. *)
Record FlagDecision := {
  shouldFlag : bool;
  flagReason : string;
  keywords : list jsstring
}.

(** [a || b] on strings: the empty string is falsy. *)
Definition orElse (a b : string) : string :=
  if String.eqb a "" then b else a.

Section Triage.
Context `{StringBuiltins}.

(** [calculatePriorityScore(rating, text)]. *)
Definition calculatePriorityScore (rating : Z) (text : jsstring) : Z :=
  let score := 5 in
  let score :=
    if rating <=? 2 then score + 3
    else if rating <=? 3 then score + 2
    else if rating >=? 5 then score - 1
    else score in
  let lowerText := toLowerCase text in
  let score :=
    if existsb (fun keyword => includes lowerText keyword) urgentKeywords
    then score + 4
    else if existsb (fun keyword => includes lowerText keyword) negativeKeywords
    then score + 2
    else score in
  let score := if (500 <? length text)%nat then score + 1 else score in
  Z.min 10 (Z.max 1 score).

(** [checkAndFlag], from its first line to [if (shouldFlag)]: the part
    that only reads [reviewData.rating] and [reviewData.text]. *)
Definition checkAndFlag_decision (rating : Z) (text : jsstring) : FlagDecision :=
  let shouldFlag0 := false in
  let flagReason0 := ""%string in
  let keywords0 : list jsstring := [] in
  let '(shouldFlag1, flagReason1) :=
    if rating <=? 2 then (true, "low_rating"%string)
    else (shouldFlag0, flagReason0) in
  let lowerText := toLowerCase text in
  let foundNegative :=
    List.filter (fun keyword => includes lowerText keyword) negativeKeywords in
  let foundUrgent :=
    List.filter (fun keyword => includes lowerText keyword) urgentKeywords in
  if (0 <? length foundUrgent)%nat then
    {| shouldFlag := true; flagReason := "urgent_keywords";
       keywords := foundUrgent |}
  else if (0 <? length foundNegative)%nat then
    {| shouldFlag := true;
       flagReason := orElse flagReason1 "negative_keywords";
       keywords := foundNegative |}
  else
    {| shouldFlag := shouldFlag1; flagReason := flagReason1;
       keywords := keywords0 |}.

End Triage.


(** ** Documents of the [reviews] collection *)

Definition DocId := jsstring.

(** A timestamp field: [null], or the [serverTimestamp()] sentinel, which
    the backend replaces by its clock when the write is applied. *)
Inductive FieldTime := TimeNull | TimeServer.

(** The [flagging] structure of a review. *)
Record Flagging := {
  fl_isFlagged : bool;
  fl_reason : option string;          (* [null] until flagged *)
  fl_keywords : list jsstring;
  fl_flaggedAt : FieldTime;
  fl_flaggedBy : option string        (* absent until flagged *)
}.

(** A review document, with the fields the triage path reads or writes
    (the author block, [analysis], [metadata] and [response] are carried
    along unread and left out). *)
Record ReviewDoc := {
  rv_businessId : jsstring;
  rv_platform : jsstring;
  rv_platformReviewId : jsstring;
  rv_rating : Z;
  rv_text : jsstring;
  rv_flagging : Flagging;
  rv_isArchived : bool;
  rv_priorityScore : Z;
  rv_createdAt : FieldTime;
  rv_updatedAt : FieldTime
}.

(** [{ id, ...docData }], what [create] and [getById] return. *)
Record Stored := { doc_id : DocId; doc_data : ReviewDoc }.

(** The argument of [createReview]; [None] is a field that is
    [undefined] or [null]. *)
Record ReviewData := {
  rd_businessId : option jsstring;
  rd_platform : option jsstring;
  rd_platformReviewId : option jsstring;
  rd_rating : option Z;
  rd_text : option jsstring;
  rd_author : option jsstring         (* the author object, by its name *)
}.

(** The argument of [flagReview]. *)
Record FlagData := {
  fd_reason : option string;
  fd_keywords : option (list jsstring);
  fd_flaggedBy : option string;
  fd_priorityScore : option Z
}.

(** The partial document handed to [update]; [None] is a key that is
    absent. *)
Record ReviewUpdate := {
  up_flagging : option Flagging;
  up_priorityScore : option Z;
  up_updatedAt : option FieldTime
}.

(** [updateDoc] replaces each top-level field the update names. *)
Definition applyUpdate (u : ReviewUpdate) (d : ReviewDoc) : ReviewDoc :=
  {| rv_businessId := rv_businessId d;
     rv_platform := rv_platform d;
     rv_platformReviewId := rv_platformReviewId d;
     rv_rating := rv_rating d;
     rv_text := rv_text d;
     rv_flagging := default (rv_flagging d) (up_flagging u);
     rv_isArchived := rv_isArchived d;
     rv_priorityScore := default (rv_priorityScore d) (up_priorityScore u);
     rv_createdAt := rv_createdAt d;
     rv_updatedAt := default (rv_updatedAt d) (up_updatedAt u) |}.

(** ** Errors, the world, and asynchronous computations *)

Inductive Error :=
| FirebaseError (code : string)
| APIError (message code : string) (statusCode : Z).

Definition errorCode (e : Error) : string :=
  match e with
  | FirebaseError code => code
  | APIError _ code _ => code
  end.

Record World := {
  store : gmap DocId ReviewDoc;       (* the [reviews] collection *)
  console : list (string * Error);    (* [console.error] calls, oldest first *)
  faults : list (option string);      (* per backend request: serve it, or
                                         reject it with this error code *)
  idSeed : N                          (* source of automatic document ids *)
}.

Inductive Outcome (A : Type) :=
| Return (a : A)
| Throw (e : Error).
Arguments Return {A} a.
Arguments Throw {A} e.

Definition Async (A : Type) := World -> Outcome A * World.

Definition ret {A} (a : A) : Async A := fun w => (Return a, w).

Definition throw {A} (e : Error) : Async A := fun w => (Throw e, w).

Definition bind {A B} (m : Async A) (k : A -> Async B) : Async B :=
  fun w =>
    match m w with
    | (Return a, w') => k a w'
    | (Throw e, w') => (Throw e, w')
    end.

(** [try { m } catch (error) { handler(error) }]. *)
Definition tryCatch {A} (m : Async A) (handler : Error -> Async A) : Async A :=
  fun w =>
    match m w with
    | (Return a, w') => (Return a, w')
    | (Throw e, w') => handler e w'
    end.

Notation "x <- m ;; k" := (bind m (fun x => k))
  (at level 100, m at next level, right associativity).
Notation "m ;;; k" := (bind m (fun _ => k))
  (at level 100, right associativity).

(** [console.error(label, error)]. *)
Definition console_error (label : string) (error : Error) : Async unit :=
  fun w =>
    (Return tt,
     {| store := store w; console := console w ++ [(label, error)];
        faults := faults w; idSeed := idSeed w |}).

(** ** The Firestore client, as the code uses it *)

(** One round trip to the backend: served, or rejected with the code the
    world holds for it. *)
Definition request : Async unit :=
  fun w =>
    match faults w with
    | [] => (Return tt, w)
    | outcome :: rest =>
        let w' := {| store := store w; console := console w;
                     faults := rest; idSeed := idSeed w |} in
        match outcome with
        | None => (Return tt, w')
        | Some code => (Throw (FirebaseError code), w')
        end
    end.

Definition autoIdAlphabet : jsstring :=
  js "ABCDEFGHIJKLMNOPQRSTUVWXYZabcdefghijklmnopqrstuvwxyz0123456789".

Fixpoint autoIdUnits (n : nat) (seed : N) : jsstring :=
  match n with
  | O => []
  | S n' =>
      nth (N.to_nat (seed mod 62)) autoIdAlphabet 65%N
        :: autoIdUnits n' (seed / 62)
  end.

(** An automatic id: twenty letters or digits. *)
Definition autoId (seed : N) : DocId := autoIdUnits 20 seed.

Definition setDoc (docId : DocId) (docData : ReviewDoc) : Async unit :=
  request ;;;
  fun w =>
    (Return tt,
     {| store := <[docId := docData]> (store w); console := console w;
        faults := faults w; idSeed := idSeed w |}).

Definition addDoc (docData : ReviewDoc) : Async DocId :=
  request ;;;
  fun w =>
    let docId := autoId (idSeed w) in
    (Return docId,
     {| store := <[docId := docData]> (store w); console := console w;
        faults := faults w; idSeed := (idSeed w + 1)%N |}).

Definition getDoc (docId : DocId) : Async (option ReviewDoc) :=
  request ;;;
  fun w => (Return (store w !! docId), w).

(** [updateDoc] fails with [not-found] on a document that does not
    exist. *)
Definition updateDoc (docId : DocId) (u : ReviewUpdate) : Async unit :=
  request ;;;
  fun w =>
    match store w !! docId with
    | None => (Throw (FirebaseError "not-found"), w)
    | Some d =>
        (Return tt,
         {| store := <[docId := applyUpdate u d]> (store w);
            console := console w; faults := faults w; idSeed := idSeed w |})
    end.

(** ** [base.js]: validation, error mapping, CRUD *)

(** [String.prototype.trim]: white space and line terminators are
    stripped from both ends. *)
Definition isWhiteSpace (c : N) : bool :=
  existsb (N.eqb c)
    [9; 10; 11; 12; 13; 32; 160; 5760; 8232; 8233; 8239; 8287; 12288; 65279]%N
  || ((8192 <=? c) && (c <=? 8202))%N.

Fixpoint trimStart (s : jsstring) : jsstring :=
  match s with
  | [] => []
  | c :: s' => if isWhiteSpace c then trimStart s' else s
  end.

Definition trimEnd (s : jsstring) : jsstring := rev (trimStart (rev s)).

Definition trim (s : jsstring) : jsstring := trimEnd (trimStart s).

Definition isEmpty (s : jsstring) : bool :=
  match s with [] => true | _ :: _ => false end.

(** [value === undefined || value === null || value === ''], for a field
    that holds a string, a name, and a value that is no string. *)
Definition missingString (v : option jsstring) : bool :=
  match v with None => true | Some s => isEmpty s end.

Definition missingName (v : option string) : bool :=
  match v with None => true | Some s => String.eqb s "" end.

Definition missingValue {A} (v : option A) : bool :=
  match v with None => true | Some _ => false end.

Definition missingTime (v : FieldTime) : bool :=
  match v with TimeNull => true | TimeServer => false end.

(** [validateRequired(data, requiredFields)]; each required field comes
    with the test of its value in [data]. *)
Definition validateRequired (requiredFields : list (string * bool)) : Async unit :=
  let missing := List.filter (fun field => snd field) requiredFields in
  if (0 <? length missing)%nat then
    throw (APIError
             (String.append "Missing required fields: "
                (String.concat ", " (List.map fst missing)))
             "VALIDATION_ERROR" 400)
  else ret tt.

(** [validateObjectId(id)]. *)
Definition validateObjectId (docId : DocId) : Async unit :=
  if isEmpty docId || isEmpty (trim docId) then
    throw (APIError "Invalid document ID" "VALIDATION_ERROR" 400)
  else ret tt.

(** [handleFirebaseError(error)]: logs, then always throws. *)
Definition handleFirebaseError {A} (error : Error) : Async A :=
  console_error "Firebase Error:" error ;;;
  let code := errorCode error in
  if String.eqb code "permission-denied" then
    throw (APIError "Permission denied" "PERMISSION_DENIED" 403)
  else if String.eqb code "not-found" then
    throw (APIError "Document not found" "NOT_FOUND" 404)
  else if String.eqb code "already-exists" then
    throw (APIError "Document already exists" "ALREADY_EXISTS" 409)
  else if String.eqb code "invalid-argument" then
    throw (APIError "Invalid argument provided" "INVALID_ARGUMENT" 400)
  else if String.eqb code "unauthenticated" then
    throw (APIError "User not authenticated" "UNAUTHENTICATED" 401)
  else
    throw (APIError "Internal server error" "INTERNAL_ERROR" 500).

Definition withTimes (d : ReviewDoc) (createdAt updatedAt : FieldTime) : ReviewDoc :=
  {| rv_businessId := rv_businessId d;
     rv_platform := rv_platform d;
     rv_platformReviewId := rv_platformReviewId d;
     rv_rating := rv_rating d;
     rv_text := rv_text d;
     rv_flagging := rv_flagging d;
     rv_isArchived := rv_isArchived d;
     rv_priorityScore := rv_priorityScore d;
     rv_createdAt := createdAt;
     rv_updatedAt := updatedAt |}.

(** [BaseCRUD.create(data, customId = null)]. *)
Definition create (data : ReviewDoc) (customId : option DocId) : Async Stored :=
  tryCatch
    (validateRequired [("createdAt", missingTime (rv_createdAt data))]%string ;;;
     let docData :=
       withTimes data
         (match rv_createdAt data with
          | TimeNull => TimeServer
          | createdAt => createdAt
          end)
         TimeServer in
     match customId with
     | Some ((_ :: _) as customId) =>
         validateObjectId customId ;;;
         setDoc customId docData ;;;
         ret {| doc_id := customId; doc_data := docData |}
     | _ =>
         docId <- addDoc docData ;;
         ret {| doc_id := docId; doc_data := docData |}
     end)
    handleFirebaseError.

(** [BaseCRUD.getById(id)]. *)
Definition getById (docId : DocId) : Async Stored :=
  tryCatch
    (validateObjectId docId ;;;
     docSnap <- getDoc docId ;;
     match docSnap with
     | None => throw (APIError "Document not found" "NOT_FOUND" 404)
     | Some docData => ret {| doc_id := docId; doc_data := docData |}
     end)
    handleFirebaseError.

(** [{ ...data, updatedAt: serverTimestamp() }], the [updateData] of
    [update]; no key of it is [undefined]. *)
Definition update_updateData (data : ReviewUpdate) : ReviewUpdate :=
  {| up_flagging := up_flagging data;
     up_priorityScore := up_priorityScore data;
     up_updatedAt := Some TimeServer |}.

(** [BaseCRUD.update(id, data)]. *)
Definition update (docId : DocId) (data : ReviewUpdate) : Async Stored :=
  tryCatch
    (validateObjectId docId ;;;
     let updateData := update_updateData data in
     updateDoc docId updateData ;;;
     getById docId)
    handleFirebaseError.

(** ** [ReviewsAPI] *)

(** [parseInt] of an integer Number: the Number is first printed.  Below
    1e21 in magnitude it prints as its decimal digits, which parse back
    to it; from 1e21 on it prints in exponent form. *)
Definition parseInt `{StringBuiltins} (n : Z) : Z :=
  if Z.abs n <? 10 ^ 21 then n else parseIntExponent n.

Arguments parseInt {_} n : simpl never.

(** [a || b] on numbers: zero is falsy. *)
Definition numberOr (a : option Z) (b : Z) : Z :=
  match a with
  | None => b
  | Some n => if n =? 0 then b else n
  end.

(** The [flagging] structure that [flagReview] builds from [flagData]. *)
Definition flagReview_flagging (flagData : FlagData) : Flagging :=
  {| fl_isFlagged := true;
     fl_reason := fd_reason flagData;
     fl_keywords := default [] (fd_keywords flagData);
     fl_flaggedAt := TimeServer;
     fl_flaggedBy :=
       Some (orElse (default ""%string (fd_flaggedBy flagData)) "system") |}.

(** The [updateData] of [flagReview]. *)
Definition flagReview_updateData (flagData : FlagData) : ReviewUpdate :=
  {| up_flagging := Some (flagReview_flagging flagData);
     up_priorityScore := Some (Z.min 10 (numberOr (fd_priorityScore flagData) 8));
     up_updatedAt := Some TimeServer |}.

(** [flagReview(reviewId, flagData)]. *)
Definition flagReview (reviewId : DocId) (flagData : FlagData) : Async Stored :=
  tryCatch
    (validateRequired [("reason", missingName (fd_reason flagData))]%string ;;;
     let updateData := flagReview_updateData flagData in
     update reviewId updateData)
    (fun error => throw error).

(** The [flagData] literal of [checkAndFlag]. *)
Definition checkAndFlag_flagData (d : FlagDecision) : FlagData :=
  {| fd_reason := Some (flagReason d);
     fd_keywords := Some (keywords d);
     fd_flaggedBy := Some "system"%string;
     fd_priorityScore := None |}.

(** The fields [createReview] requires, each with the test of its value
    in [reviewData]. *)
Definition createReview_required (reviewData : ReviewData) : list (string * bool) :=
  [("businessId", missingString (rd_businessId reviewData));
   ("platform", missingString (rd_platform reviewData));
   ("platformReviewId", missingString (rd_platformReviewId reviewData));
   ("rating", missingValue (rd_rating reviewData));
   ("text", missingString (rd_text reviewData));
   ("author", missingValue (rd_author reviewData))]%string.

Section ReviewsAPI.
Context `{StringBuiltins}.

(** [checkAndFlag(reviewId, reviewData)]. *)
Definition checkAndFlag (reviewId : DocId) (reviewData : ReviewDoc) : Async bool :=
  tryCatch
    (let d := checkAndFlag_decision (rv_rating reviewData) (rv_text reviewData) in
     (if shouldFlag d then
        flagReview reviewId (checkAndFlag_flagData d) ;;; ret tt
      else ret tt) ;;;
     ret (shouldFlag d))
    (fun error =>
       console_error "Error auto-flagging review:" error ;;;
       ret false).

(** The [reviewDoc] literal of [createReview]; its fields were checked
    by [validateRequired] just before. *)
Definition createReview_reviewDoc (reviewData : ReviewData) : ReviewDoc :=
  let rating := default 0 (rd_rating reviewData) in
  let text := default [] (rd_text reviewData) in
  {| rv_businessId := default [] (rd_businessId reviewData);
     rv_platform := default [] (rd_platform reviewData);
     rv_platformReviewId := default [] (rd_platformReviewId reviewData);
     rv_rating := parseInt rating;
     rv_text := trim text;
     rv_flagging :=
       {| fl_isFlagged := false; fl_reason := None; fl_keywords := [];
          fl_flaggedAt := TimeNull; fl_flaggedBy := None |};
     rv_isArchived := false;
     rv_priorityScore := calculatePriorityScore rating text;
     rv_createdAt := TimeServer;
     rv_updatedAt := TimeServer |}.

(** [createReview(reviewData)]. *)
Definition createReview (reviewData : ReviewData) : Async Stored :=
  tryCatch
    (validateRequired (createReview_required reviewData) ;;;
     let reviewDoc := createReview_reviewDoc reviewData in
     result <- create reviewDoc None ;;
     checkAndFlag (doc_id result) reviewDoc ;;;
     ret result)
    (fun error => throw error).

End ReviewsAPI.

(** ** The specification's vocabulary *)

(** Clamp to [[1, 10]]. *)
Definition clamp (score : Z) : Z := Z.min 10 (Z.max 1 score).

(** Rating adjustment, band by band. *)
Definition rating_adjustment (rating : Z) : Z :=
  if rating <=? 2 then 3
  else if rating =? 3 then 2
  else if rating >=? 5 then -1
  else 0.

(** Length adjustment. *)
Definition length_adjustment (text : jsstring) : Z :=
  if (500 <? length text)%nat then 1 else 0.

Section Vocabulary.
Context `{StringBuiltins}.

(** The lower-cased text contains some keyword of the tier. *)
Definition matchesAny (tier : list jsstring) (text : jsstring) : bool :=
  existsb (fun keyword => includes (toLowerCase text) keyword) tier.

(** The keywords of the tier that the lower-cased text contains, in the
    tier's order. *)
Definition matched (tier : list jsstring) (text : jsstring) : list jsstring :=
  List.filter (fun keyword => includes (toLowerCase text) keyword) tier.

(** Keyword adjustment: urgent first, else negative. *)
Definition keyword_adjustment (text : jsstring) : Z :=
  if matchesAny urgentKeywords text then 4
  else if matchesAny negativeKeywords text then 2
  else 0.

(** The score with the rating and keyword steps only. *)
Definition score_without_length (rating : Z) (text : jsstring) : Z :=
  clamp (5 + rating_adjustment rating + keyword_adjustment text).

(** The [flagging] structure the auto-flag path hands to the store for a
    review with this rating and text. *)
Definition autoFlagging (rating : Z) (text : jsstring) : Flagging :=
  flagReview_flagging
    (checkAndFlag_flagData (checkAndFlag_decision rating text)).

End Vocabulary.

(** The store of [w'] is that of [w] with update [u] applied to the
    document [docId], which exists in [w]. *)
Definition storeAfter (docId : DocId) (u : ReviewUpdate) (w w' : World) : Prop :=
  exists d, store w !! docId = Some d /\
            store w' = <[docId := applyUpdate u d]> (store w).

(** What [checkAndFlag] adds to the console when it catches [error]. *)
Definition logged (error : Error) (w : World) : World :=
  snd (console_error "Error auto-flagging review:" error w).

Arguments matchesAny {_} tier text : simpl never.
Arguments matched {_} tier text : simpl never.

(** ** Running the code on ASCII texts

    [score(r, t)] and [flag(r, t)] of the specification's examples: the
    code, on a text written as a literal. *)

Definition score (rating : Z) (text : string) : Z :=
  @calculatePriorityScore asciiBuiltins rating (js text).

Definition flag (rating : Z) (text : string) : FlagDecision :=
  @checkAndFlag_decision asciiBuiltins rating (js text).

(** A text of 501 code units with no keyword in it. *)
Definition longText : jsstring := repeat 97%N 501.

(** ** A sample run

    A one-star review is created in an empty collection, once with a
    backend that serves every request and once with a backend that serves
    the creation and rejects the flag update. *)

Definition sampleReview : ReviewData :=
  {| rd_businessId := Some (js "b1");
     rd_platform := Some (js "yelp");
     rd_platformReviewId := Some (js "r1");
     rd_rating := Some 1;
     rd_text := Some (js " Terrible food ");
     rd_author := Some (js "Ann") |}.

Definition sampleDoc : ReviewDoc :=
  @createReview_reviewDoc asciiBuiltins sampleReview.

Definition sampleResult : Stored :=
  {| doc_id := autoId 0; doc_data := sampleDoc |}.

Definition sampleFlagData : FlagData :=
  checkAndFlag_flagData
    (@checkAndFlag_decision asciiBuiltins (rv_rating sampleDoc) (rv_text sampleDoc)).

Definition calmWorld : World :=
  {| store := ∅; console := []; faults := []; idSeed := 0 |}.

Definition calmFlagged : World :=
  {| store :=
       {[ autoId 0 :=
            applyUpdate (flagReview_updateData sampleFlagData) sampleDoc ]};
     console := []; faults := []; idSeed := 1 |}.

Definition flakyWorld : World :=
  {| store := ∅; console := [];
     faults := [None; Some "unavailable"%string]; idSeed := 0 |}.

Definition flakyCreated : World :=
  {| store := {[ autoId 0 := sampleDoc ]}; console := [];
     faults := [Some "unavailable"%string]; idSeed := 1 |}.

Definition flakyError : Error :=
  APIError "Internal server error" "INTERNAL_ERROR" 500.

Definition flakyRejected : World :=
  {| store := {[ autoId 0 := sampleDoc ]};
     console := [("Firebase Error:"%string, FirebaseError "unavailable")];
     faults := []; idSeed := 1 |}.

(** ** More of [base.js] and [ReviewsAPI] *)

(** The [APIError] that [handleFirebaseError]'s [switch] throws for an
    error code. *)
Definition apiErrorFor (code : string) : Error :=
  if String.eqb code "permission-denied" then
    APIError "Permission denied" "PERMISSION_DENIED" 403
  else if String.eqb code "not-found" then
    APIError "Document not found" "NOT_FOUND" 404
  else if String.eqb code "already-exists" then
    APIError "Document already exists" "ALREADY_EXISTS" 409
  else if String.eqb code "invalid-argument" then
    APIError "Invalid argument provided" "INVALID_ARGUMENT" 400
  else if String.eqb code "unauthenticated" then
    APIError "User not authenticated" "UNAUTHENTICATED" 401
  else
    APIError "Internal server error" "INTERNAL_ERROR" 500.

Definition internalError : Error :=
  APIError "Internal server error" "INTERNAL_ERROR" 500.

(** The error of [validateObjectId]. *)
Definition invalidIdError : Error :=
  APIError "Invalid document ID" "VALIDATION_ERROR" 400.

(** The error [getById] raises for a document that does not exist. *)
Definition notFoundError : Error :=
  APIError "Document not found" "NOT_FOUND" 404.

(** What [handleFirebaseError] adds to the console. *)
Definition firebaseLogged (error : Error) (w : World) : World :=
  snd (console_error "Firebase Error:" error w).

(** The backend serves the next request. *)
Definition served (w : World) : Prop :=
  match faults w with
  | Some _ :: _ => False
  | _ => True
  end.

(** The world once the next request has been taken off [faults]. *)
Definition afterRequest (w : World) : World :=
  {| store := store w; console := console w; faults := tail (faults w);
     idSeed := idSeed w |}.

(** [deleteDoc]. *)
Definition deleteDoc (docId : DocId) : Async unit :=
  request ;;;
  fun w =>
    (Return tt,
     {| store := base.delete docId (store w); console := console w;
        faults := faults w; idSeed := idSeed w |}).

(** [BaseCRUD.delete(id)]; it returns [{ success: true, id }]. *)
Definition crud_delete (docId : DocId) : Async DocId :=
  tryCatch
    (validateObjectId docId ;;;
     getById docId ;;;
     deleteDoc docId ;;;
     ret docId)
    handleFirebaseError.

(** The [for] loop of [batchCreate], with the [results] pushed so far. *)
Fixpoint batchCreate_loop (documents : list ReviewDoc) (results : list Stored)
  : Async (list Stored) :=
  match documents with
  | [] => ret results
  | doc :: rest =>
      result <- create doc None ;;
      batchCreate_loop rest (results ++ [result])
  end.

(** [BaseCRUD.batchCreate(documents)]. *)
Definition batchCreate (documents : list ReviewDoc) : Async (list Stored) :=
  tryCatch (batchCreate_loop documents []) handleFirebaseError.

(** The [updateData] of [unflagReview]; its [unflaggedAt] stamp is a field
    the model of [flagging] does not carry. *)
Definition unflagReview_updateData : ReviewUpdate :=
  {| up_flagging :=
       Some {| fl_isFlagged := false; fl_reason := None; fl_keywords := [];
               fl_flaggedAt := TimeNull; fl_flaggedBy := None |};
     up_priorityScore := None;
     up_updatedAt := Some TimeServer |}.

(** [unflagReview(reviewId)]. *)
Definition unflagReview (reviewId : DocId) : Async Stored :=
  tryCatch
    (let updateData := unflagReview_updateData in
     update reviewId updateData)
    (fun error => throw error).

(** A document differs from another at most in the fields an update can
    name. *)
Definition sameContent (d d' : ReviewDoc) : Prop :=
  rv_businessId d' = rv_businessId d /\
  rv_platform d' = rv_platform d /\
  rv_platformReviewId d' = rv_platformReviewId d /\
  rv_rating d' = rv_rating d /\
  rv_text d' = rv_text d /\
  rv_isArchived d' = rv_isArchived d /\
  rv_createdAt d' = rv_createdAt d.

(** The [flagging] structure of a review that is not flagged. *)
Definition notFlagged : Flagging :=
  {| fl_isFlagged := false; fl_reason := None; fl_keywords := [];
     fl_flaggedAt := TimeNull; fl_flaggedBy := None |}.

(** Every code unit of the string is white space (so for the empty
    string too). *)
Definition blank (s : jsstring) : bool := forallb isWhiteSpace s.

(** The keyword bonus read off a flag decision: none without keywords, 4
    for the urgent tier, 2 for the negative tier. *)
Definition decision_bonus (d : FlagDecision) : Z :=
  match keywords d with
  | [] => 0
  | _ :: _ => if String.eqb (flagReason d) "urgent_keywords" then 4 else 2
  end.


(** The sample review once flagged, and once unflagged again. *)
Definition flaggedDoc : ReviewDoc :=
  applyUpdate (flagReview_updateData sampleFlagData) sampleDoc.

Definition unflaggedDoc : ReviewDoc :=
  applyUpdate unflagReview_updateData flaggedDoc.

Definition calmUnflagged : World :=
  {| store := {[ autoId 0 := unflaggedDoc ]}; console := []; faults := [];
     idSeed := 1 |}.

(** The world with another store, and with the next automatic id taken. *)
Definition withStore (s : gmap DocId ReviewDoc) (w : World) : World :=
  {| store := s; console := console w; faults := faults w;
     idSeed := idSeed w |}.

Definition nextId (w : World) : World :=
  {| store := store w; console := console w; faults := faults w;
     idSeed := (idSeed w + 1)%N |}.

(** The message of [validateRequired] for the fields of [createReview]
    that are missing. *)
Definition createReview_missing (reviewData : ReviewData) : string :=
  String.append "Missing required fields: "
    (String.concat ", "
       (List.map fst
          (List.filter (fun field => snd field)
             (createReview_required reviewData)))).

(** Two documents carry the same review: business, platform, platform
    review id, rating, text and archive flag. *)
Definition sameReview (d d' : ReviewDoc) : Prop :=
  rv_businessId d' = rv_businessId d /\
  rv_platform d' = rv_platform d /\
  rv_platformReviewId d' = rv_platformReviewId d /\
  rv_rating d' = rv_rating d /\
  rv_text d' = rv_text d /\
  rv_isArchived d' = rv_isArchived d.

(** The id is one path segment: it has no ['/'] (code unit 47), so
    [doc(collectionRef, id)] accepts it. *)
Definition singleSegment (docId : DocId) : bool :=
  forallb (fun c => negb (c =? 47)%N) docId.

(** ** Lemmas on the pure part *)

Lemma filter_nonempty_existsb {A} (f : A -> bool) (l : list A) :
  (0 <? length (List.filter f l))%nat = existsb f l.
Proof.
  induction l as [|a l IH]; simpl; [reflexivity|].
  destruct (f a); simpl; [reflexivity | exact IH].
Qed.

Lemma filter_nil_existsb {A} (f : A -> bool) (l : list A) :
  List.filter f l = [] <-> existsb f l = false.
Proof.
  induction l as [|a l IH]; simpl; [easy|].
  destruct (f a); simpl; [easy | exact IH].
Qed.

Lemma clamp_range (score : Z) : 1 <= clamp score <= 10.
Proof. unfold clamp. lia. Qed.

Section PureLemmas.
Context `{StringBuiltins}.

Lemma calculatePriorityScore_unfold (rating : Z) (text : jsstring) :
  calculatePriorityScore rating text =
  clamp (5 + rating_adjustment rating + keyword_adjustment text
         + length_adjustment text).
Proof.
  unfold calculatePriorityScore, clamp, rating_adjustment,
    keyword_adjustment, length_adjustment, matchesAny.
  destruct (500 <? length text)%nat;
    match goal with
    | |- context [existsb ?f urgentKeywords] =>
        destruct (existsb f urgentKeywords);
        destruct (existsb f negativeKeywords)
    end;
    destruct (rating <=? 2) eqn:E2;
    destruct (rating <=? 3) eqn:E3;
    destruct (rating =? 3) eqn:E3';
    destruct (rating >=? 5) eqn:E5;
    try reflexivity; lia.
Qed.

(** The decision, branch by branch. *)
Lemma decision_urgent (rating : Z) (text : jsstring) :
  matchesAny urgentKeywords text = true ->
  checkAndFlag_decision rating text =
  {| shouldFlag := true; flagReason := "urgent_keywords";
     keywords := matched urgentKeywords text |}.
Proof.
  intros Hu. unfold checkAndFlag_decision, matchesAny, matched in *.
  rewrite !filter_nonempty_existsb, Hu.
  destruct (rating <=? 2); reflexivity.
Qed.

Lemma decision_negative (rating : Z) (text : jsstring) :
  matchesAny urgentKeywords text = false ->
  matchesAny negativeKeywords text = true ->
  checkAndFlag_decision rating text =
  {| shouldFlag := true;
     flagReason := if rating <=? 2 then "low_rating" else "negative_keywords";
     keywords := matched negativeKeywords text |}.
Proof.
  intros Hu Hn. unfold checkAndFlag_decision, matchesAny, matched in *.
  rewrite !filter_nonempty_existsb, Hu, Hn.
  destruct (rating <=? 2); reflexivity.
Qed.

Lemma decision_no_keyword (rating : Z) (text : jsstring) :
  matchesAny urgentKeywords text = false ->
  matchesAny negativeKeywords text = false ->
  checkAndFlag_decision rating text =
  {| shouldFlag := rating <=? 2;
     flagReason := if rating <=? 2 then "low_rating" else "";
     keywords := [] |}.
Proof.
  intros Hu Hn. unfold checkAndFlag_decision, matchesAny, matched in *.
  rewrite !filter_nonempty_existsb, Hu, Hn.
  destruct (rating <=? 2); reflexivity.
Qed.

Lemma matched_nil (tier : list jsstring) (text : jsstring) :
  matched tier text = [] <-> matchesAny tier text = false.
Proof. apply filter_nil_existsb. Qed.

End PureLemmas.

(** ** Lemmas on the effectful part *)

Lemma handleFirebaseError_throws {A} (error : Error) (w : World) :
  exists e, @handleFirebaseError A error w =
            (Throw e, snd (console_error "Firebase Error:" error w)).
Proof.
  unfold handleFirebaseError, bind, throw, console_error; simpl.
  repeat match goal with
         | |- context [if ?b then _ else _] => destruct b
         end; eexists; reflexivity.
Qed.

(** A guarded body, [try { m } catch (error) { handleFirebaseError(error) }],
    returns only what its body returns. *)
Lemma guarded_Return {A} (m : Async A) w a w' :
  tryCatch m handleFirebaseError w = (Return a, w') -> m w = (Return a, w').
Proof.
  unfold tryCatch. destruct (m w) as [[a0|e] w1]; [trivial|].
  destruct (@handleFirebaseError_throws A e w1) as [e' ->]. discriminate.
Qed.

Lemma guarded_store {A} (m : Async A) w o w' :
  (forall o1 w1, m w = (o1, w1) -> store w1 = store w) ->
  tryCatch m handleFirebaseError w = (o, w') -> store w' = store w.
Proof.
  intros Hm. unfold tryCatch. destruct (m w) as [[a0|e] w1] eqn:Em.
  - intros [= <- <-]. eapply Hm; reflexivity.
  - destruct (@handleFirebaseError_throws A e w1) as [e' ->].
    intros [= <- <-]. simpl. eapply Hm; reflexivity.
Qed.

Lemma request_store w o w' : request w = (o, w') -> store w' = store w.
Proof.
  unfold request. destruct (faults w) as [|[code|] rest];
    intros [= <- <-]; reflexivity.
Qed.

Lemma validateObjectId_world docId w o w' :
  validateObjectId docId w = (o, w') -> w' = w.
Proof.
  unfold validateObjectId, throw, ret.
  destruct (isEmpty docId || isEmpty (trim docId)); intros [= <- <-]; reflexivity.
Qed.

Lemma validateRequired_world fields w o w' :
  validateRequired fields w = (o, w') -> w' = w.
Proof.
  unfold validateRequired, throw, ret.
  destruct (0 <? length _)%nat; intros [= <- <-]; reflexivity.
Qed.

Lemma validateRequired_pass fields w :
  List.filter (fun field => snd field) fields = [] ->
  validateRequired fields w = (Return tt, w).
Proof. unfold validateRequired. intros ->. reflexivity. Qed.

Lemma getById_store docId w o w' :
  getById docId w = (o, w') -> store w' = store w.
Proof.
  unfold getById. apply guarded_store. intros o1 w1.
  unfold bind, getDoc.
  destruct (validateObjectId docId w) as [[[]|e] w2] eqn:Ev;
    apply validateObjectId_world in Ev; subst w2; [|intros [= <- <-]; reflexivity].
  unfold bind. destruct (request w) as [[[]|e] w2] eqn:Er;
    apply request_store in Er; [|intros [= <- <-]; exact Er].
  destruct (store w2 !! docId); unfold throw, ret; intros [= <- <-]; exact Er.
Qed.

Lemma updateDoc_outcome docId u w o w' :
  updateDoc docId u w = (o, w') ->
  (o = Return tt /\ storeAfter docId u w w') \/
  ((exists e, o = Throw e) /\ store w' = store w).
Proof.
  unfold updateDoc, bind.
  destruct (request w) as [[[]|e] w1] eqn:Er; apply request_store in Er.
  - destruct (store w1 !! docId) as [d|] eqn:Ed; intros [= <- <-].
    + left. split; [reflexivity|]. exists d. simpl. rewrite <- Er. auto.
    + right. split; [eauto | exact Er].
  - intros [= <- <-]. right. split; [eauto | exact Er].
Qed.

Lemma update_body docId data w o w' :
  (validateObjectId docId ;;;
   let updateData := update_updateData data in
   updateDoc docId updateData ;;; getById docId) w = (o, w') ->
  ((exists e, o = Throw e) /\ store w' = store w) \/
  storeAfter docId (update_updateData data) w w'.
Proof.
  unfold bind at 1.
  destruct (validateObjectId docId w) as [[[]|e] w1] eqn:Ev;
    apply validateObjectId_world in Ev; subst w1;
    [|intros [= <- <-]; left; eauto].
  cbv zeta. unfold bind.
  destruct (updateDoc docId (update_updateData data) w) as [[[]|e] w1] eqn:Eu;
    apply updateDoc_outcome in Eu;
    destruct Eu as [[Ho Hs]|[[e' Ho] Hs]]; try discriminate Ho.
  - intros Hg. apply getById_store in Hg. right.
    destruct Hs as (d & Hd & Hs). exists d. split; [exact Hd | congruence].
  - intros [= <- <-]. left. eauto.
Qed.

Lemma update_Return docId data w r w' :
  update docId data w = (Return r, w') ->
  storeAfter docId (update_updateData data) w w'.
Proof.
  unfold update. intros Hu. apply guarded_Return in Hu.
  apply update_body in Hu. destruct Hu as [[[e He] _]|Hs]; [discriminate | exact Hs].
Qed.

Lemma update_store docId data w o w' :
  update docId data w = (o, w') ->
  store w' = store w \/ storeAfter docId (update_updateData data) w w'.
Proof.
  unfold update, tryCatch.
  destruct ((validateObjectId docId;;; _) w) as [[a|e] w1] eqn:Eb;
    apply update_body in Eb.
  - intros [= <- <-]. destruct Eb as [[_ Hs]|Hs]; auto.
  - destruct (@handleFirebaseError_throws Stored e w1) as [e' ->].
    intros [= <- <-]. simpl.
    destruct Eb as [[_ Hs]|Hs]; [left; exact Hs | right; exact Hs].
Qed.

Lemma flagReview_Return reviewId flagData w r w' :
  flagReview reviewId flagData w = (Return r, w') ->
  storeAfter reviewId (flagReview_updateData flagData) w w'.
Proof.
  unfold flagReview, tryCatch, bind.
  destruct (validateRequired _ w) as [[[]|e] w1] eqn:Ev;
    apply validateRequired_world in Ev; subst w1; [|discriminate].
  cbv zeta.
  destruct (update reviewId (flagReview_updateData flagData) w)
    as [[a|e] w1] eqn:Eu; [|discriminate].
  intros [= <- <-]. apply update_Return in Eu. exact Eu.
Qed.

Lemma flagReview_store reviewId flagData w o w' :
  flagReview reviewId flagData w = (o, w') ->
  store w' = store w \/
  storeAfter reviewId (flagReview_updateData flagData) w w'.
Proof.
  unfold flagReview, tryCatch, bind, throw.
  destruct (validateRequired _ w) as [[[]|e] w1] eqn:Ev;
    apply validateRequired_world in Ev; subst w1;
    [|intros [= <- <-]; left; reflexivity].
  cbv zeta.
  destruct (update reviewId (flagReview_updateData flagData) w)
    as [[a|e] w1] eqn:Eu; apply update_store in Eu;
    intros [= <- <-]; exact Eu.
Qed.

Lemma create_Return (reviewDoc : ReviewDoc) w result w1 :
  create reviewDoc None w = (Return result, w1) ->
  store w1 !! doc_id result = Some (doc_data result) /\
  rv_flagging (doc_data result) = rv_flagging reviewDoc /\
  rv_priorityScore (doc_data result) = rv_priorityScore reviewDoc.
Proof.
  unfold create. intros Hc. apply guarded_Return in Hc. revert Hc.
  unfold bind at 1.
  destruct (validateRequired _ w) as [[[]|e] w2] eqn:Ev; [|discriminate].
  apply validateRequired_world in Ev; subst w2.
  cbv zeta. unfold addDoc, bind, ret.
  destruct (request w) as [[[]|e] w2]; [|discriminate].
  intros [= <- <-]. simpl. rewrite lookup_insert_eq. auto.
Qed.

Section EffectLemmas.
Context `{StringBuiltins}.

(** [checkAndFlag], outcome by outcome. *)
Lemma checkAndFlag_eq reviewId reviewData w :
checkAndFlag reviewId reviewData w =
let d := checkAndFlag_decision (rv_rating reviewData) (rv_text reviewData) in
if shouldFlag d then
  match flagReview reviewId (checkAndFlag_flagData d) w with
  | (Return _, w') => (Return true, w')
  | (Throw error, w') => (Return false, logged error w')
  end
else (Return false, w).
Proof.
unfold checkAndFlag, tryCatch, bind, ret, logged. cbv zeta.
destruct (shouldFlag _); [|reflexivity].
destruct (flagReview _ _ w) as [[a|e] w']; reflexivity.
Qed.

Lemma checkAndFlag_returns reviewId reviewData w :
exists b w', checkAndFlag reviewId reviewData w = (Return b, w').
Proof.
rewrite checkAndFlag_eq. cbv zeta.
destruct (shouldFlag _); [|eauto].
destruct (flagReview _ _ w) as [[a|e] w']; eauto.
Qed.

Lemma checkAndFlag_true reviewId reviewData w w' :
checkAndFlag reviewId reviewData w = (Return true, w') ->
let d := checkAndFlag_decision (rv_rating reviewData) (rv_text reviewData) in
shouldFlag d = true /\
storeAfter reviewId (flagReview_updateData (checkAndFlag_flagData d)) w w'.
Proof.
rewrite checkAndFlag_eq. cbv zeta.
destruct (shouldFlag _); [|discriminate].
destruct (flagReview _ _ w) as [[a|e] w2] eqn:Ef; [|discriminate].
intros [= <-]. split; [reflexivity|].
eapply flagReview_Return. exact Ef.
Qed.

Lemma checkAndFlag_store reviewId reviewData w o w' :
checkAndFlag reviewId reviewData w = (o, w') ->
let d := checkAndFlag_decision (rv_rating reviewData) (rv_text reviewData) in
store w' = store w \/
storeAfter reviewId (flagReview_updateData (checkAndFlag_flagData d)) w w'.
Proof.
rewrite checkAndFlag_eq. cbv zeta.
destruct (shouldFlag _); [|intros [= <- <-]; left; reflexivity].
destruct (flagReview _ _ w) as [[a|e] w2] eqn:Ef;
  apply flagReview_store in Ef; intros [= <- <-]; exact Ef.
Qed.

Lemma createReview_Return reviewData w result w' :
createReview reviewData w = (Return result, w') ->
let reviewDoc := createReview_reviewDoc reviewData in
List.filter (fun field => snd field) (createReview_required reviewData) = [] /\
exists w1 b,
  create reviewDoc None w = (Return result, w1) /\
  checkAndFlag (doc_id result) reviewDoc w1 = (Return b, w').
Proof.
unfold createReview, tryCatch, throw. unfold bind at 1.
unfold validateRequired at 1.
destruct (List.filter _ (createReview_required reviewData)) eqn:Ef;
  [|discriminate].
simpl. intros Hrun. split; [reflexivity|]. revert Hrun. unfold bind, ret.
destruct (create _ None w) as [[r|e] w1] eqn:Ec; [|discriminate].
destruct (checkAndFlag (doc_id r) _ w1) as [[b|e] w2] eqn:Ek; [|discriminate].
intros [= <- <-]. eauto.
Qed.

Lemma createReview_of_create reviewData w result w1 :
let reviewDoc := createReview_reviewDoc reviewData in
List.filter (fun field => snd field) (createReview_required reviewData) = [] ->
create reviewDoc None w = (Return result, w1) ->
createReview reviewData w =
(Return result, snd (checkAndFlag (doc_id result) reviewDoc w1)).
Proof.
intros reviewDoc Hv Hc. subst reviewDoc.
unfold createReview, tryCatch. unfold bind at 1.
rewrite (validateRequired_pass _ _ Hv). cbv zeta. unfold bind, ret.
rewrite Hc.
destruct (checkAndFlag_returns (doc_id result)
            (createReview_reviewDoc reviewData) w1) as (b & w2 & ->).
reflexivity.
Qed.

End EffectLemmas.

(** ** The priority scorer *)

(** C2: for every integer rating, in range or not, and every text,
    [calculatePriorityScore] returns an integer between 1 and 10
    inclusive. *)
Theorem calculatePriorityScore_range `{StringBuiltins}
    (rating : Z) (text : jsstring) :
  1 <= calculatePriorityScore rating text <= 10.
Proof. rewrite calculatePriorityScore_unfold. apply clamp_range. Qed.

(** C3, as stated, leaves the length step out of the computation; on a
    text of 501 characters the code returns 6 where base, rating and
    keyword steps alone give 5. *)
Lemma score_without_length_differs :
  @calculatePriorityScore asciiBuiltins 4 longText = 6 /\
  @score_without_length asciiBuiltins 4 longText = 5 /\
  @calculatePriorityScore asciiBuiltins 4 longText <>
  @score_without_length asciiBuiltins 4 longText.
Proof. vm_compute. repeat split; discriminate. Qed.

(** C3, amended: [calculatePriorityScore] computes base 5; plus 3 if
    rating <= 2, plus 2 if rating = 3, minus 1 if rating >= 5, plus 0 if
    rating = 4; plus 4 if the lower-cased text contains an urgent keyword,
    else plus 2 if it contains a negative keyword; plus 1 if the text is
    longer than 500 characters; then clamped to [[1, 10]].  So
    score(1, "") = 8, score(5, "") = 4, score(3, "this is fine") = 7 and
    score(4, "this was a lawsuit-worthy terrible experience") = 9. *)
Theorem calculatePriorityScore_formula :
  (forall (B : StringBuiltins) (rating : Z) (text : jsstring),
      calculatePriorityScore rating text =
      clamp (5 + rating_adjustment rating + keyword_adjustment text
             + length_adjustment text)) /\
  score 1 "" = 8 /\
  score 5 "" = 4 /\
  score 3 "this is fine" = 7 /\
  score 4 "this was a lawsuit-worthy terrible experience" = 9.
Proof.
  split; [intros B rating text; apply calculatePriorityScore_unfold|].
  repeat split; reflexivity.
Qed.

(** C6: an out-of-range rating is scored without failing: below 1 it gets
    the adjustment of the <= 2 band (+3), above 5 that of the >= 5 band
    (-1), and the result is still between 1 and 10. *)
Theorem out_of_range_rating `{StringBuiltins} (rating : Z) (text : jsstring) :
  (rating < 1 ->
   calculatePriorityScore rating text =
     clamp (5 + 3 + keyword_adjustment text + length_adjustment text) /\
   calculatePriorityScore rating text = calculatePriorityScore 2 text) /\
  (5 < rating ->
   calculatePriorityScore rating text =
     clamp (5 - 1 + keyword_adjustment text + length_adjustment text) /\
   calculatePriorityScore rating text = calculatePriorityScore 5 text) /\
  1 <= calculatePriorityScore rating text <= 10.
Proof.
  rewrite !calculatePriorityScore_unfold. unfold rating_adjustment.
  split; [|split; [|apply clamp_range]]; intros Hr.
  - destruct (rating <=? 2) eqn:E; [split; reflexivity | lia].
  - destruct (rating <=? 2) eqn:E2; [lia|].
    destruct (rating =? 3) eqn:E3; [lia|].
    destruct (rating >=? 5) eqn:E5; [split; reflexivity | lia].
Qed.

Lemma out_of_range_rating_witness :
  (@calculatePriorityScore asciiBuiltins 0 [] = 8 /\
   @calculatePriorityScore asciiBuiltins 0 [] =
   @calculatePriorityScore asciiBuiltins 2 []) /\
  (@calculatePriorityScore asciiBuiltins 6 [] = 4 /\
   @calculatePriorityScore asciiBuiltins 6 [] =
   @calculatePriorityScore asciiBuiltins 5 []).
Proof.
  split.
  - apply (proj1 (@out_of_range_rating asciiBuiltins 0 [])). lia.
  - apply (proj1 (proj2 (@out_of_range_rating asciiBuiltins 6 []))). lia.
Defined.

(** C7: for every rating and every text longer than 500 characters, the
    score is the clamp to [[1, 10]] of the base, rating and keyword steps
    plus 1; the 1 is added once whatever keyword tier matched, and the
    total does not exceed 10. *)
Theorem long_text_adds_one `{StringBuiltins} (rating : Z) (text : jsstring) :
  (500 < length text)%nat ->
  calculatePriorityScore rating text =
    clamp (5 + rating_adjustment rating + keyword_adjustment text + 1) /\
  calculatePriorityScore rating text <= 10.
Proof.
  intros Hlen. rewrite calculatePriorityScore_unfold.
  unfold length_adjustment.
  destruct (Nat.ltb_spec 500 (length text)) as [_|Hle]; [|lia].
  split; [reflexivity | apply clamp_range].
Qed.

Lemma long_text_adds_one_witness :
  (500 < length longText)%nat /\
  @calculatePriorityScore asciiBuiltins 4 longText = 6.
Proof.
  assert (Hlen : (500 < length longText)%nat)
    by (unfold longText; rewrite repeat_length; lia).
  split; [exact Hlen|].
  exact (proj1 (@long_text_adds_one asciiBuiltins 4 longText Hlen)).
Defined.

(** ** The flag decision *)

(** C4: the decision sets [shouldFlag] exactly when the rating is at most
    2, or the lower-cased text contains an urgent keyword, or it contains
    a negative keyword; when none holds, [shouldFlag] is false, the reason
    is none (the empty string) and no keyword is kept.  So
    flag(5, "this was a scam") flags with reason [negative_keywords] and
    keywords ["scam"], though rating 5 alone does not flag. *)
Theorem shouldFlag_iff_any_condition :
  (forall (B : StringBuiltins) (rating : Z) (text : jsstring),
      let d := checkAndFlag_decision rating text in
      (shouldFlag d = true <->
       rating <= 2 \/ matchesAny urgentKeywords text = true
       \/ matchesAny negativeKeywords text = true) /\
      (~ (rating <= 2 \/ matchesAny urgentKeywords text = true
          \/ matchesAny negativeKeywords text = true) ->
       shouldFlag d = false /\ flagReason d = ""%string /\ keywords d = [])) /\
  flag 5 "this was a scam" =
    {| shouldFlag := true; flagReason := "negative_keywords";
       keywords := [js "scam"] |} /\
  shouldFlag (flag 5 "") = false.
Proof.
  split; [|split; reflexivity].
  intros B rating text d. subst d.
  destruct (matchesAny urgentKeywords text) eqn:Hu.
  { rewrite (decision_urgent _ _ Hu); simpl. split; [tauto|].
    intros Hno. exfalso. apply Hno. tauto. }
  destruct (matchesAny negativeKeywords text) eqn:Hn.
  { rewrite (decision_negative _ _ Hu Hn); simpl. split; [tauto|].
    intros Hno. exfalso. apply Hno. tauto. }
  rewrite (decision_no_keyword _ _ Hu Hn); simpl.
  destruct (Z.leb_spec rating 2) as [Hle|Hgt].
  - split; [tauto|]. intros Hno. exfalso. apply Hno. tauto.
  - split; [|intros _; repeat split].
    split; [discriminate|]. intros [Hr|[Hf|Hf]]; [lia | discriminate..].
Qed.

Lemma shouldFlag_iff_any_condition_witness :
  shouldFlag (@checkAndFlag_decision asciiBuiltins 4 (js "a fine lunch")) = false
  /\ flagReason (@checkAndFlag_decision asciiBuiltins 4 (js "a fine lunch")) = ""%string
  /\ keywords (@checkAndFlag_decision asciiBuiltins 4 (js "a fine lunch")) = [].
Proof.
  apply (proj2 (proj1 shouldFlag_iff_any_condition asciiBuiltins 4
                  (js "a fine lunch"))).
  vm_compute. intros [Hr|[Hf|Hf]]; [apply Hr; reflexivity | discriminate..].
Defined.

(** C5: when an urgent keyword matches, the reason is [urgent_keywords],
    also for a low rating, and the keywords are all the matched urgent
    terms in the order of the fixed set; when no urgent keyword matches
    but a negative one does, the reason is [negative_keywords] exactly
    when the rating is above 2, and [low_rating] otherwise.  So
    flag(1, "lawsuit and scam") has reason [urgent_keywords] and keywords
    ["lawsuit"], without "scam". *)
Theorem flag_reason_precedence :
  (forall (B : StringBuiltins) (rating : Z) (text : jsstring),
      let d := checkAndFlag_decision rating text in
      (matchesAny urgentKeywords text = true ->
       flagReason d = "urgent_keywords"%string /\
       keywords d =
       List.filter (fun keyword => includes (toLowerCase text) keyword)
         urgentKeywords) /\
      (matchesAny urgentKeywords text = false ->
       matchesAny negativeKeywords text = true ->
       (flagReason d = "negative_keywords"%string <-> 2 < rating) /\
       (rating <= 2 -> flagReason d = "low_rating"%string))) /\
  flagReason (flag 1 "lawsuit and scam") = "urgent_keywords"%string /\
  keywords (flag 1 "lawsuit and scam") = [js "lawsuit"] /\
  ~ In (js "scam") (keywords (flag 1 "lawsuit and scam")).
Proof.
  split.
  - intros B rating text d. subst d. split.
    + intros Hu. rewrite (decision_urgent _ _ Hu). split; reflexivity.
    + intros Hu Hn. rewrite (decision_negative _ _ Hu Hn); simpl.
      destruct (Z.leb_spec rating 2) as [Hle|Hgt].
      * split; [split; [discriminate | lia] | reflexivity].
      * split; [split; [lia | reflexivity] | lia].
  - split; [reflexivity|]. split; [reflexivity|].
    vm_compute. intros [Heq|[]]. discriminate.
Qed.

Lemma flag_reason_precedence_witness :
  flagReason (@checkAndFlag_decision asciiBuiltins 1 (js "Health hazard, LEGAL action"))
    = "urgent_keywords"%string /\
  keywords (@checkAndFlag_decision asciiBuiltins 1 (js "Health hazard, LEGAL action"))
    = [js "legal"; js "health"] /\
  flagReason (@checkAndFlag_decision asciiBuiltins 2 (js "rude staff"))
    = "low_rating"%string /\
  flagReason (@checkAndFlag_decision asciiBuiltins 3 (js "rude staff"))
    = "negative_keywords"%string.
Proof.
  pose proof (proj1 flag_reason_precedence asciiBuiltins) as P.
  split; [|split; [|split]].
  - apply (proj1 (P 1 (js "Health hazard, LEGAL action"))). reflexivity.
  - apply (proj2 (proj1 (P 1 (js "Health hazard, LEGAL action"))
                    ltac:(reflexivity))).
  - apply (proj2 (proj2 (P 2 (js "rude staff")) ltac:(reflexivity)
                    ltac:(reflexivity))). lia.
  - apply (proj1 (proj2 (P 3 (js "rude staff")) ltac:(reflexivity)
                    ltac:(reflexivity))). lia.
Defined.

(** C1, as stated, fails on a low-rated review whose text has a negative
    keyword: the reason written is [low_rating] and the keywords written
    are the matched negative terms. *)
Lemma low_rating_keeps_keywords :
  shouldFlag (flag 1 "terrible service") = true /\
  fl_reason (@autoFlagging asciiBuiltins 1 (js "terrible service"))
    = Some "low_rating"%string /\
  fl_keywords (@autoFlagging asciiBuiltins 1 (js "terrible service"))
    = [js "terrible"] /\
  fl_keywords (@autoFlagging asciiBuiltins 1 (js "terrible service")) <> [].
Proof. vm_compute. repeat split; discriminate. Qed.

(** C1, amended: the keywords written by the auto-flag path are non-empty
    only when a keyword matched the lower-cased text: the reason is
    keyword-based ([urgent_keywords] or [negative_keywords]), or it is
    [low_rating] and the text contains a negative keyword and no urgent
    one; for reason [low_rating] the list written is exactly the matched
    negative terms, so it is empty only when the text contains no negative
    keyword; for a keyword-based reason it is never empty. *)
Theorem autoFlagging_keywords `{StringBuiltins} (rating : Z) (text : jsstring) :
  let f := autoFlagging rating text in
  (fl_keywords f <> [] ->
   fl_reason f = Some "urgent_keywords"%string \/
   fl_reason f = Some "negative_keywords"%string \/
   (fl_reason f = Some "low_rating"%string /\
    matchesAny urgentKeywords text = false /\
    matchesAny negativeKeywords text = true)) /\
  (fl_reason f = Some "low_rating"%string ->
   fl_keywords f = matched negativeKeywords text /\
   (fl_keywords f = [] <-> matchesAny negativeKeywords text = false)) /\
  (fl_reason f = Some "urgent_keywords"%string \/
   fl_reason f = Some "negative_keywords"%string ->
   fl_keywords f <> []).
Proof.
  intros f. subst f. unfold autoFlagging, flagReview_flagging,
    checkAndFlag_flagData. simpl.
  destruct (matchesAny urgentKeywords text) eqn:Hu.
  { rewrite (decision_urgent _ _ Hu); simpl.
    assert (Hne : matched urgentKeywords text <> []).
    { intros Hnil. apply matched_nil in Hnil. congruence. }
    split; [tauto|]. split; [discriminate | intros _; exact Hne]. }
  destruct (matchesAny negativeKeywords text) eqn:Hn.
  { rewrite (decision_negative _ _ Hu Hn); simpl.
    assert (Hne : matched negativeKeywords text <> []).
    { intros Hnil. apply matched_nil in Hnil. congruence. }
    destruct (rating <=? 2).
    - split; [tauto|]. split.
      + intros _. split; [reflexivity|]. split; [tauto | intros Hf; discriminate Hf].
      + intros [Hr|Hr]; discriminate Hr.
    - split; [tauto|]. split; [discriminate | intros _; exact Hne]. }
  rewrite (decision_no_keyword _ _ Hu Hn); simpl.
  split; [intros Hne; exfalso; apply Hne; reflexivity|].
  split.
  - intros _. split; [symmetry; apply matched_nil; exact Hn | tauto].
  - destruct (rating <=? 2); intros [Hr|Hr]; discriminate Hr.
Qed.

Lemma autoFlagging_keywords_witness :
  fl_keywords (@autoFlagging asciiBuiltins 2 (js "the worst, so rude"))
    = [js "worst"; js "rude"] /\
  fl_keywords (@autoFlagging asciiBuiltins 4 (js "a safety issue")) <> [].
Proof.
  split.
  - apply (proj1 (proj2 (@autoFlagging_keywords asciiBuiltins 2
                           (js "the worst, so rude")))).
    reflexivity.
  - apply (proj2 (proj2 (@autoFlagging_keywords asciiBuiltins 4
                           (js "a safety issue")))).
    left. reflexivity.
Defined.

(** ** Persisting the decision *)

(** C8: when the persist step fails ([flagReview] throws inside
    [checkAndFlag]), the error is caught and logged, [checkAndFlag]
    returns false, and the enclosing [createReview] still returns the
    review it created.  [checkAndFlag] throws in no world, and
    [createReview] returns whenever its own validation and [create]
    do. *)
Theorem flag_persist_failure_swallowed `{StringBuiltins} :
  (forall reviewId reviewDoc w,
      exists b w', checkAndFlag reviewId reviewDoc w = (Return b, w')) /\
  (forall reviewData w result w1 error w2,
      let reviewDoc := createReview_reviewDoc reviewData in
      let d := checkAndFlag_decision (rv_rating reviewDoc) (rv_text reviewDoc) in
      List.filter (fun field => snd field) (createReview_required reviewData) = [] ->
      create reviewDoc None w = (Return result, w1) ->
      shouldFlag d = true ->
      flagReview (doc_id result) (checkAndFlag_flagData d) w1 = (Throw error, w2) ->
      checkAndFlag (doc_id result) reviewDoc w1 = (Return false, logged error w2) /\
      console (logged error w2) =
        console w2 ++ [("Error auto-flagging review:"%string, error)] /\
      createReview reviewData w = (Return result, logged error w2)) /\
  (forall reviewData w result w1,
      List.filter (fun field => snd field) (createReview_required reviewData) = [] ->
      create (createReview_reviewDoc reviewData) None w = (Return result, w1) ->
      exists w', createReview reviewData w = (Return result, w')).
Proof.
  split; [intros; apply checkAndFlag_returns|].
  split; [|intros reviewData w result w1 Hv Hc; eexists;
           apply (createReview_of_create reviewData w result w1 Hv Hc)].
  intros reviewData w result w1 error w2 reviewDoc d Hv Hc Hd Hf.
  assert (Hk : checkAndFlag (doc_id result) reviewDoc w1 =
               (Return false, logged error w2)).
  { rewrite checkAndFlag_eq. cbv zeta. fold reviewDoc. fold d.
    rewrite Hd, Hf. reflexivity. }
  split; [exact Hk|]. split; [reflexivity|].
  rewrite (createReview_of_create reviewData w result w1 Hv Hc).
  fold reviewDoc. rewrite Hk. reflexivity.
Qed.

Lemma flag_persist_failure_swallowed_witness :
  @checkAndFlag asciiBuiltins (autoId 0) sampleDoc flakyCreated =
    (Return false, logged flakyError flakyRejected) /\
  console (logged flakyError flakyRejected) =
    console flakyRejected ++ [("Error auto-flagging review:"%string, flakyError)] /\
  @createReview asciiBuiltins sampleReview flakyWorld =
    (Return sampleResult, logged flakyError flakyRejected).
Proof.
  apply (proj1 (proj2 (@flag_persist_failure_swallowed asciiBuiltins))
           sampleReview flakyWorld sampleResult flakyCreated flakyError
           flakyRejected).
  - reflexivity.
  - vm_compute. reflexivity.
  - reflexivity.
  - vm_compute. reflexivity.
Defined.

(** ** Further properties of the scorer and the decision *)

Lemma startsWith_spec (p s : jsstring) :
  startsWith s p = true <-> exists post, s = p ++ post.
Proof.
  revert s. induction p as [|c p IH]; intros s; simpl.
  - split; [intros _; exists s; reflexivity | intros _; destruct s; reflexivity].
  - destruct s as [|d s]; [split; [discriminate | intros [post Hp]; discriminate Hp]|].
    simpl. rewrite andb_true_iff, N.eqb_eq, IH. split.
    + intros [-> [post ->]]. exists post. reflexivity.
    + intros [post [= -> ->]]. split; [reflexivity | exists post; reflexivity].
Qed.

Lemma includes_spec (s sub : jsstring) :
  includes s sub = true <-> exists pre post, s = pre ++ sub ++ post.
Proof.
  induction s as [|c s IH].
  - change (includes [] sub) with (startsWith [] sub || false).
    rewrite orb_false_r, startsWith_spec. split.
    + intros [post Hp]. exists [], post. exact Hp.
    + intros (pre & post & Hp). destruct pre; [exists post; exact Hp | discriminate Hp].
  - change (includes (c :: s) sub)
      with (startsWith (c :: s) sub || includes s sub).
    rewrite orb_true_iff, startsWith_spec, IH. split.
    + intros [[post Hp]|(pre & post & ->)].
      * exists [], post. exact Hp.
      * exists (c :: pre), post. reflexivity.
    + intros (pre & post & Hp). destruct pre as [|c' pre].
      * left. exists post. exact Hp.
      * right. injection Hp as -> ->. exists pre, post. reflexivity.
Qed.

Lemma rating_adjustment_range (rating : Z) :
  -1 <= rating_adjustment rating <= 3.
Proof.
  unfold rating_adjustment.
  destruct (rating <=? 2); [lia|]. destruct (rating =? 3); [lia|].
  destruct (rating >=? 5); lia.
Qed.

Lemma length_adjustment_range (text : jsstring) :
  0 <= length_adjustment text <= 1.
Proof. unfold length_adjustment. destruct (500 <? length text)%nat; lia. Qed.

Section MorePureLemmas.
Context `{StringBuiltins}.

Lemma keyword_adjustment_range (text : jsstring) :
  0 <= keyword_adjustment text <= 4.
Proof.
  unfold keyword_adjustment.
  destruct (matchesAny urgentKeywords text); [lia|].
  destruct (matchesAny negativeKeywords text); lia.
Qed.

Lemma matched_In (tier : list jsstring) (text k : jsstring) :
  In k (matched tier text) <->
  In k tier /\ exists pre post, toLowerCase text = pre ++ k ++ post.
Proof.
  unfold matched. rewrite filter_In, includes_spec. reflexivity.
Qed.

Lemma matchesAny_In (tier : list jsstring) (text : jsstring) :
  matchesAny tier text = true <->
  exists k, In k tier /\ exists pre post, toLowerCase text = pre ++ k ++ post.
Proof.
  unfold matchesAny. rewrite existsb_exists.
  split; intros (k & Hk & Hi); exists k; split; try exact Hk;
    apply includes_spec; exact Hi.
Qed.

(** The decision in one case analysis. *)
Lemma decision_cases (rating : Z) (text : jsstring) :
  let d := checkAndFlag_decision rating text in
  (matchesAny urgentKeywords text = true /\
   d = {| shouldFlag := true; flagReason := "urgent_keywords";
          keywords := matched urgentKeywords text |} /\
   matched urgentKeywords text <> []) \/
  (matchesAny urgentKeywords text = false /\
   matchesAny negativeKeywords text = true /\
   d = {| shouldFlag := true;
          flagReason := if rating <=? 2 then "low_rating" else "negative_keywords";
          keywords := matched negativeKeywords text |} /\
   matched negativeKeywords text <> []) \/
  (matchesAny urgentKeywords text = false /\
   matchesAny negativeKeywords text = false /\
   d = {| shouldFlag := rating <=? 2;
          flagReason := if rating <=? 2 then "low_rating" else "";
          keywords := [] |}).
Proof.
  intros d. subst d.
  destruct (matchesAny urgentKeywords text) eqn:Hu.
  { left. split; [reflexivity|]. split; [apply decision_urgent; exact Hu|].
    intros Hnil. apply matched_nil in Hnil. congruence. }
  destruct (matchesAny negativeKeywords text) eqn:Hn.
  { right. left. split; [reflexivity|]. split; [reflexivity|].
    split; [apply decision_negative; assumption|].
    intros Hnil. apply matched_nil in Hnil. congruence. }
  right. right. split; [reflexivity|]. split; [reflexivity|].
  apply decision_no_keyword; assumption.
Qed.

End MorePureLemmas.

(** X1: the score is never below 4: the clamp at 1 never takes effect, and
    the score is the sum of the steps capped at 10. *)
Theorem score_at_least_4 `{StringBuiltins} (rating : Z) (text : jsstring) :
  4 <= calculatePriorityScore rating text <= 10 /\
  calculatePriorityScore rating text =
  Z.min 10 (5 + rating_adjustment rating + keyword_adjustment text
            + length_adjustment text).
Proof.
  rewrite calculatePriorityScore_unfold. unfold clamp.
  pose proof (rating_adjustment_range rating).
  pose proof (keyword_adjustment_range text).
  pose proof (length_adjustment_range text).
  lia.
Qed.

(** X2: the score never grows with the rating: of two reviews with the
    same text, the one with the lower rating scores at least as high. *)
Theorem score_antitone_in_rating `{StringBuiltins}
    (rating rating' : Z) (text : jsstring) :
  rating <= rating' ->
  calculatePriorityScore rating' text <= calculatePriorityScore rating text.
Proof.
  intros Hle. rewrite !calculatePriorityScore_unfold.
  assert (Hadj : rating_adjustment rating' <= rating_adjustment rating).
  { unfold rating_adjustment.
    destruct (Z.leb_spec rating 2), (Z.leb_spec rating' 2),
      (Z.eqb_spec rating 3), (Z.eqb_spec rating' 3),
      (Z.geb_spec rating 5), (Z.geb_spec rating' 5); lia. }
  unfold clamp. lia.
Qed.

Lemma score_antitone_in_rating_witness :
  @calculatePriorityScore asciiBuiltins 5 (js "rude") <=
  @calculatePriorityScore asciiBuiltins 1 (js "rude").
Proof.
  apply (@score_antitone_in_rating asciiBuiltins 1 5 (js "rude")). lia.
Defined.

(** X3: a review the decision flags scores at least 6, and one it does
    not flag scores at most 8; so every review that scores 9 or 10 is
    flagged. *)
Theorem flagged_score_bounds `{StringBuiltins} (rating : Z) (text : jsstring) :
  let d := checkAndFlag_decision rating text in
  (shouldFlag d = true -> 6 <= calculatePriorityScore rating text) /\
  (shouldFlag d = false -> calculatePriorityScore rating text <= 8) /\
  (9 <= calculatePriorityScore rating text -> shouldFlag d = true).
Proof.
  intros d.
  assert (Hcore :
    (shouldFlag d = true -> 6 <= calculatePriorityScore rating text) /\
    (shouldFlag d = false -> calculatePriorityScore rating text <= 8)).
  { rewrite calculatePriorityScore_unfold.
    unfold clamp, keyword_adjustment, rating_adjustment.
    pose proof (length_adjustment_range text) as Hl.
    destruct (decision_cases rating text)
      as [(Hu & Hd & _)|[(Hu & Hn & Hd & _)|(Hu & Hn & Hd)]];
      fold d in Hd; rewrite Hd, Hu, ?Hn; simpl;
      destruct (Z.leb_spec rating 2), (Z.eqb_spec rating 3),
        (Z.geb_spec rating 5); split; intros Hs; try discriminate Hs; lia. }
  destruct Hcore as [Hf Hn]. split; [exact Hf|]. split; [exact Hn|].
  intros H9. destruct (shouldFlag d); [reflexivity|].
  specialize (Hn eq_refl). lia.
Qed.

Lemma flagged_score_bounds_witness :
  6 <= @calculatePriorityScore asciiBuiltins 5 (js "rude") /\
  @calculatePriorityScore asciiBuiltins 3 (js "fine") <= 8.
Proof.
  split.
  - apply (proj1 (@flagged_score_bounds asciiBuiltins 5 (js "rude"))).
    reflexivity.
  - apply (proj1 (proj2 (@flagged_score_bounds asciiBuiltins 3 (js "fine")))).
    reflexivity.
Defined.

(** X4: the scorer and the flag decision agree on the keywords: the score
    is base, rating and length steps plus the bonus of the tier whose
    keywords the decision recorded (4 urgent, 2 negative, 0 when it
    recorded none), capped at 10. *)
Theorem score_from_decision `{StringBuiltins} (rating : Z) (text : jsstring) :
  calculatePriorityScore rating text =
  Z.min 10 (5 + rating_adjustment rating
            + decision_bonus (checkAndFlag_decision rating text)
            + length_adjustment text).
Proof.
  assert (Hb : decision_bonus (checkAndFlag_decision rating text) =
               keyword_adjustment text).
  { unfold keyword_adjustment, decision_bonus.
    destruct (decision_cases rating text)
      as [(Hu & Hd & Hne)|[(Hu & Hn & Hd & Hne)|(Hu & Hn & Hd)]];
      rewrite Hd, Hu, ?Hn; simpl.
    - destruct (matched urgentKeywords text); [congruence | reflexivity].
    - destruct (matched negativeKeywords text); [congruence|].
      destruct (rating <=? 2); reflexivity.
    - reflexivity. }
  rewrite Hb, calculatePriorityScore_unfold. unfold clamp.
  pose proof (rating_adjustment_range rating).
  pose proof (keyword_adjustment_range text).
  pose proof (length_adjustment_range text).
  lia.
Qed.

Lemma urgentKeywords_NoDup : List.NoDup urgentKeywords.
Proof. apply NoDup_ListNoDup, (bool_decide_unpack _). vm_compute. exact I. Qed.

Lemma negativeKeywords_NoDup : List.NoDup negativeKeywords.
Proof. apply NoDup_ListNoDup, (bool_decide_unpack _). vm_compute. exact I. Qed.

Section KeywordLemmas.
Context `{StringBuiltins}.

Lemma urgent_occurrence (rating : Z) (text k : jsstring) :
  In k urgentKeywords ->
  (exists pre post, toLowerCase text = pre ++ k ++ post) ->
  let d := checkAndFlag_decision rating text in
  shouldFlag d = true /\ flagReason d = "urgent_keywords"%string /\
  In k (keywords d) /\ 8 <= calculatePriorityScore rating text.
Proof.
  intros Hk Hocc d. subst d.
  assert (Hu : matchesAny urgentKeywords text = true)
    by (apply matchesAny_In; exists k; auto).
  rewrite (decision_urgent _ _ Hu); simpl.
  split; [reflexivity|]. split; [reflexivity|].
  split; [apply matched_In; auto|].
  rewrite calculatePriorityScore_unfold. unfold keyword_adjustment, clamp.
  rewrite Hu.
  pose proof (rating_adjustment_range rating).
  pose proof (length_adjustment_range text). lia.
Qed.

Lemma matched_NoDup (tier : list jsstring) (text : jsstring) :
  List.NoDup tier -> List.NoDup (matched tier text).
Proof. unfold matched. apply List.NoDup_filter. Qed.

Lemma matched_length (tier : list jsstring) (text : jsstring) :
  (length (matched tier text) <= length tier)%nat.
Proof. unfold matched. apply List.filter_length_le. Qed.

End KeywordLemmas.

(** X5: a decision is well formed: its reason is one of the four names,
    it flags exactly when the reason is set (so the reason always passes
    [flagReview]'s required-field check on the automatic path), and its
    keywords come from one tier only (the urgent tier exactly when the
    reason is [urgent_keywords]), without repetition, at most seven. *)
Theorem decision_well_formed `{StringBuiltins} (rating : Z) (text : jsstring) :
  let d := checkAndFlag_decision rating text in
  (flagReason d = ""%string \/ flagReason d = "low_rating"%string \/
   flagReason d = "negative_keywords"%string \/
   flagReason d = "urgent_keywords"%string) /\
  (shouldFlag d = true <-> flagReason d <> ""%string) /\
  (shouldFlag d = true ->
   missingName (fd_reason (checkAndFlag_flagData d)) = false) /\
  (flagReason d = "urgent_keywords"%string ->
   forall k, In k (keywords d) -> In k urgentKeywords) /\
  (flagReason d <> "urgent_keywords"%string ->
   forall k, In k (keywords d) -> In k negativeKeywords) /\
  List.NoDup (keywords d) /\
  (length (keywords d) <= 7)%nat.
Proof.
  intros d.
  destruct (decision_cases rating text)
    as [(Hu & Hd & _)|[(Hu & Hn & Hd & _)|(Hu & Hn & Hd)]];
    fold d in Hd; rewrite Hd; simpl.
  - split; [tauto|]. split; [split; [discriminate | reflexivity]|].
    split; [reflexivity|].
    split; [intros _ k Hk; apply matched_In in Hk; tauto|].
    split; [intros Hne; exfalso; apply Hne; reflexivity|].
    split; [apply matched_NoDup, urgentKeywords_NoDup|].
    etransitivity; [apply matched_length|]. vm_compute. lia.
  - split; [destruct (rating <=? 2); tauto|].
    split; [split; [destruct (rating <=? 2); discriminate | reflexivity]|].
    split; [destruct (rating <=? 2); reflexivity|].
    split; [destruct (rating <=? 2); discriminate|].
    split; [intros _ k Hk; apply matched_In in Hk; tauto|].
    split; [apply matched_NoDup, negativeKeywords_NoDup|].
    etransitivity; [apply matched_length|]. vm_compute. lia.
  - destruct (rating <=? 2); simpl.
    + split; [tauto|]. split; [split; [discriminate | reflexivity]|].
      split; [reflexivity|]. split; [discriminate|].
      split; [intros _ k []|]. split; [constructor | lia].
    + split; [tauto|].
      split; [split; [discriminate | intros Hne; exfalso; apply Hne; reflexivity]|].
      split; [discriminate|]. split; [discriminate|].
      split; [intros _ k []|]. split; [constructor | lia].
Qed.

Lemma decision_well_formed_witness :
  missingName
    (fd_reason (checkAndFlag_flagData
                  (@checkAndFlag_decision asciiBuiltins 2 (js "slow")))) = false
  /\ forall k,
      In k (keywords (@checkAndFlag_decision asciiBuiltins 4 (js "unsafe: a safety and health risk"))) ->
      In k urgentKeywords.
Proof.
  split.
  - apply (proj1 (proj2 (proj2 (@decision_well_formed asciiBuiltins 2 (js "slow"))))).
    reflexivity.
  - apply (proj1 (proj2 (proj2 (proj2
             (@decision_well_formed asciiBuiltins 4
                (js "unsafe: a safety and health risk")))))).
    reflexivity.
Defined.

(** X6: keyword matching is substring matching on the lower-cased text: a
    keyword the decision reports occurs in the lower-cased text, and an
    urgent keyword that occurs in it, anywhere, is reported, makes the
    reason [urgent_keywords] and the score at least 8. *)
Theorem reported_keywords_occur `{StringBuiltins}
    (rating : Z) (text k : jsstring) :
  let d := checkAndFlag_decision rating text in
  (In k (keywords d) ->
   exists pre post, toLowerCase text = pre ++ k ++ post) /\
  (In k urgentKeywords ->
   (exists pre post, toLowerCase text = pre ++ k ++ post) ->
   shouldFlag d = true /\ flagReason d = "urgent_keywords"%string /\
   In k (keywords d) /\ 8 <= calculatePriorityScore rating text).
Proof.
  intros d. split; [|intros Hk Hocc; apply urgent_occurrence; assumption].
  destruct (decision_cases rating text)
    as [(Hu & Hd & _)|[(Hu & Hn & Hd & _)|(Hu & Hn & Hd)]];
    fold d in Hd; rewrite Hd; simpl; intros Hk;
    [apply matched_In in Hk; tauto | apply matched_In in Hk; tauto | destruct Hk].
Qed.

Lemma reported_keywords_occur_witness :
  exists pre post,
    List.map lowerUnit (js "Awful, just AWFUL") = pre ++ js "awful" ++ post.
Proof.
  apply (proj1 (@reported_keywords_occur asciiBuiltins 3
                  (js "Awful, just AWFUL") (js "awful"))).
  vm_compute. left. reflexivity.
Defined.

(** X7: on ASCII texts the match ignores case and word boundaries: a
    text of code units below 128 that contains an urgent keyword in any
    mix of upper and lower case, even inside a longer word, gets the
    reason [urgent_keywords], that keyword among its keywords, and a
    score of at least 8. *)
Theorem ascii_urgent_keyword_anywhere
    (rating : Z) (pre word post k : jsstring) :
  forallb (fun c => (c <? 128)%N) (pre ++ word ++ post) = true ->
  In k urgentKeywords ->
  List.map lowerUnit word = k ->
  let text := pre ++ word ++ post in
  let d := @checkAndFlag_decision asciiBuiltins rating text in
  shouldFlag d = true /\ flagReason d = "urgent_keywords"%string /\
  In k (keywords d) /\
  8 <= @calculatePriorityScore asciiBuiltins rating text.
Proof.
  intros _ Hk Hw text d. subst d.
  apply (@urgent_occurrence asciiBuiltins rating text k Hk).
  exists (List.map lowerUnit pre), (List.map lowerUnit post).
  subst text. simpl. rewrite !List.map_app, Hw. reflexivity.
Qed.

Lemma ascii_urgent_keyword_anywhere_witness :
  flagReason (flag 5 "Lovely unHEALTHy snacks") = "urgent_keywords"%string /\
  8 <= score 5 "Lovely unHEALTHy snacks".
Proof.
  pose proof (ascii_urgent_keyword_anywhere 5 (js "Lovely un") (js "HEALTH")
                (js "y snacks") (js "health")) as P.
  cbv zeta in P.
  assert (Hk : In (js "health") urgentKeywords)
    by (vm_compute; right; right; left; reflexivity).
  specialize (P eq_refl Hk eq_refl). destruct P as (_ & Hr & _ & Hs).
  split; [exact Hr | exact Hs].
Defined.

(** ** Further lemmas on the store and the CRUD layer *)

Lemma handleFirebaseError_eq {A} (error : Error) (w : World) :
  @handleFirebaseError A error w =
  (Throw (apiErrorFor (errorCode error)), firebaseLogged error w).
Proof.
  unfold handleFirebaseError, apiErrorFor, bind, throw, firebaseLogged,
    console_error; simpl.
  repeat match goal with
         | |- context [if ?b then _ else _] => destruct b
         end; reflexivity.
Qed.

Lemma apiErrorFor_masked (code : string) :
  apiErrorFor (errorCode (apiErrorFor code)) = internalError.
Proof.
  unfold apiErrorFor at 2.
  repeat match goal with
         | |- context [if String.eqb code ?c then _ else _] =>
             destruct (String.eqb code c)
         end; reflexivity.
Qed.

Lemma apiErrorFor_not_validation (code : string) :
  errorCode (apiErrorFor code) <> "VALIDATION_ERROR"%string.
Proof.
  unfold apiErrorFor.
  repeat match goal with
         | |- context [if ?b then _ else _] => destruct b
         end; discriminate.
Qed.

Lemma afterRequest_calm (w : World) : faults w = [] -> afterRequest w = w.
Proof. destruct w as [s c f i]; simpl. intros ->. reflexivity. Qed.

Lemma request_served (w : World) :
  served w -> request w = (Return tt, afterRequest w).
Proof.
  unfold served, request. destruct (faults w) as [|[code|] rest] eqn:Ef.
  - intros _. rewrite afterRequest_calm by exact Ef. reflexivity.
  - intros [].
  - intros _. unfold afterRequest. rewrite Ef. reflexivity.
Qed.

Lemma request_rejected (w : World) (code : string) (rest : list (option string)) :
  faults w = Some code :: rest ->
  request w = (Throw (FirebaseError code), afterRequest w).
Proof.
  intros Ef. unfold request, afterRequest. rewrite Ef. reflexivity.
Qed.

(** *** White space *)

Lemma trimStart_nil (s : jsstring) : trimStart s = [] <-> blank s = true.
Proof.
  unfold blank. induction s as [|c s IH]; simpl; [tauto|].
  destruct (isWhiteSpace c); simpl; [exact IH|].
  split; discriminate.
Qed.

Lemma trimStart_head (s : jsstring) :
  match trimStart s with
  | [] => True
  | c :: _ => isWhiteSpace c = false
  end.
Proof.
  induction s as [|c s IH]; simpl; [exact I|].
  destruct (isWhiteSpace c) eqn:Ec; [exact IH | exact Ec].
Qed.

Lemma trimStart_suffix (s : jsstring) :
  exists pre, s = pre ++ trimStart s /\ blank pre = true.
Proof.
  induction s as [|c s (pre & Hs & Hb)]; simpl; [exists []; auto|].
  destruct (isWhiteSpace c) eqn:Ec.
  - exists (c :: pre). split; [simpl; congruence|].
    unfold blank in *. simpl. rewrite Ec. exact Hb.
  - exists []. auto.
Qed.

Lemma blank_rev (s : jsstring) : blank (rev s) = blank s.
Proof.
  unfold blank. apply eq_true_iff_eq.
  rewrite !forallb_forall. split; intros Hall c Hc; apply Hall;
    [apply -> in_rev | apply in_rev]; exact Hc.
Qed.

Lemma trim_nil (s : jsstring) : trim s = [] <-> blank s = true.
Proof.
  unfold trim, trimEnd.
  split.
  - intros Hn. apply (f_equal (@rev N)) in Hn. rewrite rev_involutive in Hn.
    simpl in Hn. apply trimStart_nil in Hn. rewrite blank_rev in Hn.
    destruct (trimStart_suffix s) as (pre & Hs & Hb).
    rewrite Hs. unfold blank in *. rewrite forallb_app, Hb, Hn. reflexivity.
  - intros Hb. apply trimStart_nil in Hb. rewrite Hb. reflexivity.
Qed.

Lemma trimEnd_prefix (s : jsstring) :
  exists post, s = trimEnd s ++ post /\ blank post = true.
Proof.
  unfold trimEnd. destruct (trimStart_suffix (rev s)) as (pre & Hs & Hb).
  exists (rev pre). split; [|rewrite blank_rev; exact Hb].
  rewrite <- rev_app_distr, <- Hs, rev_involutive. reflexivity.
Qed.

(** A trimmed string neither starts nor ends with white space. *)
Lemma trim_ends (s : jsstring) :
  match trim s with
  | [] => True
  | c :: _ => isWhiteSpace c = false
  end /\
  match rev (trim s) with
  | [] => True
  | c :: _ => isWhiteSpace c = false
  end.
Proof.
  unfold trim. split.
  - destruct (trimEnd_prefix (trimStart s)) as (post & Hs & _).
    pose proof (trimStart_head s) as Hh.
    destruct (trimEnd (trimStart s)) as [|c t]; [exact I|].
    rewrite Hs in Hh. exact Hh.
  - unfold trimEnd. rewrite rev_involutive. apply trimStart_head.
Qed.

Lemma validateObjectId_eq (docId : DocId) (w : World) :
  validateObjectId docId w =
  if blank docId
  then (Throw (APIError "Invalid document ID" "VALIDATION_ERROR" 400), w)
  else (Return tt, w).
Proof.
  unfold validateObjectId.
  destruct (blank docId) eqn:Eb.
  - apply trim_nil in Eb. rewrite Eb. rewrite orb_true_r. reflexivity.
  - destruct (isEmpty docId || isEmpty (trim docId)) eqn:Ee; [|reflexivity].
    exfalso. apply orb_true_iff in Ee. destruct Ee as [Ee|Ee].
    + destruct docId; [discriminate Eb | discriminate Ee].
    + destruct (trim docId) eqn:Et; [|discriminate Ee].
      apply trim_nil in Et. congruence.
Qed.

Lemma autoIdAlphabet_nth (n : nat) :
  isWhiteSpace (nth n autoIdAlphabet 65%N) = false.
Proof.
  assert (Hall : forallb (fun c => negb (isWhiteSpace c)) autoIdAlphabet = true)
    by (vm_compute; reflexivity).
  rewrite forallb_forall in Hall.
  destruct (nth_in_or_default n autoIdAlphabet 65%N) as [Hin| ->].
  - apply Hall in Hin. destruct (isWhiteSpace _); [discriminate Hin | reflexivity].
  - reflexivity.
Qed.

Lemma autoId_valid (seed : N) : blank (autoId seed) = false.
Proof.
  unfold autoId, blank.
  change (autoIdUnits 20 seed)
    with (nth (N.to_nat (seed mod 62)) autoIdAlphabet 65%N
            :: autoIdUnits 19 (seed / 62)).
  cbn [forallb]. rewrite autoIdAlphabet_nth. reflexivity.
Qed.

Lemma getById_eq (docId : DocId) (w : World) :
  blank docId = false -> served w ->
  getById docId w =
  match store w !! docId with
  | Some d => (Return {| doc_id := docId; doc_data := d |}, afterRequest w)
  | None => (Throw internalError, firebaseLogged notFoundError (afterRequest w))
  end.
Proof.
  intros Hb Hs. unfold getById, tryCatch, getDoc. unfold bind at 1.
  rewrite validateObjectId_eq, Hb. unfold bind.
  rewrite (request_served w Hs).
  change (store (afterRequest w)) with (store w).
  destruct (store w !! docId); [reflexivity|].
  unfold throw. rewrite handleFirebaseError_eq. reflexivity.
Qed.

Lemma getById_Return (docId : DocId) w r w' :
  getById docId w = (Return r, w') ->
  doc_id r = docId /\ store w !! docId = Some (doc_data r) /\
  store w' = store w /\ blank docId = false.
Proof.
  unfold getById. intros Hg. apply guarded_Return in Hg. revert Hg.
  unfold bind at 1. rewrite validateObjectId_eq.
  destruct (blank docId); [discriminate|].
  unfold getDoc, bind.
  destruct (request w) as [[[]|e] w1] eqn:Er; [|discriminate].
  apply request_store in Er.
  destruct (store w1 !! docId) as [d|] eqn:Ed; [|discriminate].
  intros [= <- <-]. simpl. rewrite <- Er. auto.
Qed.

Lemma getById_invalid (docId : DocId) (w : World) :
  blank docId = true ->
  getById docId w = (Throw internalError, firebaseLogged invalidIdError w).
Proof.
  intros Hb. unfold getById, tryCatch. unfold bind at 1.
  rewrite validateObjectId_eq, Hb, handleFirebaseError_eq. reflexivity.
Qed.

Lemma update_invalid (docId : DocId) (data : ReviewUpdate) (w : World) :
  blank docId = true ->
  update docId data w = (Throw internalError, firebaseLogged invalidIdError w).
Proof.
  intros Hb. unfold update, tryCatch. unfold bind at 1.
  rewrite validateObjectId_eq, Hb, handleFirebaseError_eq. reflexivity.
Qed.

Lemma crud_delete_invalid (docId : DocId) (w : World) :
  blank docId = true ->
  crud_delete docId w = (Throw internalError, firebaseLogged invalidIdError w).
Proof.
  intros Hb. unfold crud_delete, tryCatch. unfold bind at 1.
  rewrite validateObjectId_eq, Hb, handleFirebaseError_eq. reflexivity.
Qed.

(** ** Properties of the CRUD layer *)

(** X8: [validateObjectId] accepts exactly the ids that have a code unit
    that is not white space; it rejects the empty string and strings of
    white space with [VALIDATION_ERROR] (400).  It never touches the
    world, and every automatic id passes. *)
Theorem validateObjectId_accepts (docId : DocId) (w : World) :
  (blank docId = false -> validateObjectId docId w = (Return tt, w)) /\
  (blank docId = true ->
   validateObjectId docId w =
   (Throw (APIError "Invalid document ID" "VALIDATION_ERROR" 400), w)) /\
  (forall seed, validateObjectId (autoId seed) w = (Return tt, w)).
Proof.
  split; [|split].
  - intros Hb. rewrite validateObjectId_eq, Hb. reflexivity.
  - intros Hb. rewrite validateObjectId_eq, Hb. reflexivity.
  - intros seed. rewrite validateObjectId_eq, autoId_valid. reflexivity.
Qed.

Lemma validateObjectId_accepts_witness :
  validateObjectId (js " r1 ") {| store := ∅; console := []; faults := []; idSeed := 0 |}
    = (Return tt, {| store := ∅; console := []; faults := []; idSeed := 0 |}) /\
  validateObjectId (js "   ") {| store := ∅; console := []; faults := []; idSeed := 0 |}
    = (Throw (APIError "Invalid document ID" "VALIDATION_ERROR" 400),
       {| store := ∅; console := []; faults := []; idSeed := 0 |}).
Proof.
  split.
  - apply (proj1 (validateObjectId_accepts (js " r1 ") _)). reflexivity.
  - apply (proj1 (proj2 (validateObjectId_accepts (js "   ") _))). reflexivity.
Defined.

(** X9: a missing document is reported differently by reading and by
    writing.  With an id of one path segment that is not blank and a
    backend that serves the request, [getById] of a document that does
    not exist throws [INTERNAL_ERROR] (500): its own [NOT_FOUND] error
    goes through [handleFirebaseError], whose [switch] knows only the
    backend's ['not-found'].  [update] of the same document throws
    [NOT_FOUND] (404).  Neither changes the store. *)
Theorem missing_document_errors (docId : DocId) (data : ReviewUpdate) (w : World) :
  blank docId = false -> singleSegment docId = true ->
  served w -> store w !! docId = None ->
  getById docId w =
    (Throw (APIError "Internal server error" "INTERNAL_ERROR" 500),
     firebaseLogged notFoundError (afterRequest w)) /\
  update docId data w =
    (Throw (APIError "Document not found" "NOT_FOUND" 404),
     firebaseLogged (FirebaseError "not-found") (afterRequest w)) /\
  store (firebaseLogged notFoundError (afterRequest w)) = store w.
Proof.
  intros Hb _ Hs Hnone. split; [|split; [|reflexivity]].
  - rewrite (getById_eq docId w Hb Hs), Hnone. reflexivity.
  - unfold update, tryCatch. unfold bind at 1.
    rewrite validateObjectId_eq, Hb. cbv zeta. unfold bind, updateDoc.
    unfold bind. rewrite (request_served w Hs).
    change (store (afterRequest w)) with (store w). rewrite Hnone.
    rewrite handleFirebaseError_eq. reflexivity.
Qed.

Lemma missing_document_errors_witness :
  getById (js "r1") calmWorld =
    (Throw (APIError "Internal server error" "INTERNAL_ERROR" 500),
     firebaseLogged notFoundError (afterRequest calmWorld)) /\
  update (js "r1") unflagReview_updateData calmWorld =
    (Throw (APIError "Document not found" "NOT_FOUND" 404),
     firebaseLogged (FirebaseError "not-found") (afterRequest calmWorld)).
Proof.
  destruct (missing_document_errors (js "r1") unflagReview_updateData calmWorld)
    as (Hg & Hu & _); [reflexivity | reflexivity | exact I | reflexivity |].
  split; [exact Hg | exact Hu].
Defined.

(** X10: with an id that is empty or all white space, [getById], [update]
    and [delete] throw [INTERNAL_ERROR] (500), not the
    [VALIDATION_ERROR] (400) that [validateObjectId] raised: the error
    passes through [handleFirebaseError].  No request is sent and the
    store is unchanged; the validation error is logged. *)
Theorem invalid_id_is_internal_error (docId : DocId) (data : ReviewUpdate) (w : World) :
  blank docId = true ->
  let w' := firebaseLogged invalidIdError w in
  getById docId w = (Throw internalError, w') /\
  update docId data w = (Throw internalError, w') /\
  crud_delete docId w = (Throw internalError, w') /\
  store w' = store w /\ faults w' = faults w /\
  console w' = console w ++ [("Firebase Error:"%string, invalidIdError)].
Proof.
  intros Hb w'. subst w'.
  split; [apply getById_invalid; exact Hb|].
  split; [apply update_invalid; exact Hb|].
  split; [apply crud_delete_invalid; exact Hb|].
  repeat split.
Qed.

Lemma invalid_id_is_internal_error_witness :
  getById (js "  ") calmWorld =
  (Throw internalError, firebaseLogged invalidIdError calmWorld).
Proof.
  apply (invalid_id_is_internal_error (js "  ") unflagReview_updateData calmWorld).
  reflexivity.
Defined.




Lemma update_Return_full (docId : DocId) (data : ReviewUpdate) w r w' :
  update docId data w = (Return r, w') ->
  exists d,
    store w !! docId = Some d /\ doc_id r = docId /\
    doc_data r = applyUpdate (update_updateData data) d /\
    store w' = <[docId := doc_data r]> (store w).
Proof.
  unfold update. intros Hu. apply guarded_Return in Hu. revert Hu.
  unfold bind at 1.
  destruct (validateObjectId docId w) as [[[]|e] w0] eqn:Ev; [|discriminate].
  apply validateObjectId_world in Ev; subst w0. cbv zeta. unfold bind.
  destruct (updateDoc docId (update_updateData data) w) as [[[]|e] w1] eqn:Eu;
    [|discriminate].
  apply updateDoc_outcome in Eu.
  destruct Eu as [[_ (d & Hd & Hs)]|[[e' He] _]]; [|discriminate He].
  intros Hg. apply getById_Return in Hg. destruct Hg as (Hid & Hlook & Hst & _).
  exists d. rewrite Hs, lookup_insert_eq in Hlook. injection Hlook as Hdata.
  split; [exact Hd|]. split; [exact Hid|]. split; [symmetry; exact Hdata|].
  rewrite Hst, Hs, <- Hdata. reflexivity.
Qed.

Lemma create_Return_full (data : ReviewDoc) (customId : option DocId) w r w' :
  create data customId w = (Return r, w') ->
  rv_createdAt data = TimeServer /\
  doc_data r = withTimes data (rv_createdAt data) TimeServer /\
  store w' = <[doc_id r := doc_data r]> (store w) /\
  match customId with
  | Some (c :: s) => doc_id r = c :: s /\ idSeed w' = idSeed w
  | _ => doc_id r = autoId (idSeed w) /\ idSeed w' = (idSeed w + 1)%N
  end.
Proof.
  unfold create. intros Hc. apply guarded_Return in Hc. revert Hc.
  unfold bind at 1, validateRequired.
  destruct (rv_createdAt data) eqn:Ec; simpl; [discriminate|].
  assert (Hauto :
    (docId <- addDoc (withTimes data TimeServer TimeServer);;
     ret {| doc_id := docId;
            doc_data := withTimes data TimeServer TimeServer |}) w
    = (Return r, w') ->
    TimeServer = TimeServer /\
    doc_data r = withTimes data TimeServer TimeServer /\
    store w' = <[doc_id r := doc_data r]> (store w) /\
    doc_id r = autoId (idSeed w) /\ idSeed w' = (idSeed w + 1)%N).
  { unfold addDoc, bind, ret.
    destruct (request w) as [[[]|e] w1] eqn:Er; [|discriminate].
    intros [= <- <-]. simpl.
    pose proof (request_store _ _ _ Er) as Hs.
    assert (Hi : idSeed w1 = idSeed w).
    { revert Er. unfold request. destruct (faults w) as [|[code|] rest];
        intros [= <-]; reflexivity. }
    rewrite Hs, Hi. auto. }
  destruct customId as [[|c s]|]; [exact Hauto| |exact Hauto].
  unfold bind at 1. rewrite validateObjectId_eq.
  destruct (blank (c :: s)); [discriminate|].
  unfold setDoc, bind, ret.
  destruct (request w) as [[[]|e] w1] eqn:Er; [|discriminate].
  intros [= <- <-]. simpl.
  pose proof (request_store _ _ _ Er) as Hs.
  assert (Hi : idSeed w1 = idSeed w).
  { revert Er. unfold request. destruct (faults w) as [|[code|] rest];
      intros [= <-]; reflexivity. }
  rewrite Hs, Hi. auto.
Qed.

Lemma create_Throw (data : ReviewDoc) (customId : option DocId) w e w' :
  create data customId w = (Throw e, w') ->
  store w' = store w /\ exists code, e = apiErrorFor code.
Proof.
  unfold create, tryCatch.
  match goal with
  | |- context [match ?m w with _ => _ end] =>
      destruct (m w) as [[a|e0] w1] eqn:Eb
  end; [discriminate|].
  rewrite handleFirebaseError_eq. intros [= <- <-].
  split; [|eauto]. simpl. revert Eb.
  unfold bind at 1, validateRequired.
  destruct (rv_createdAt data); simpl; [intros [= <- <-]; reflexivity|].
  destruct customId as [[|c s]|].
  - unfold addDoc, bind, ret.
    destruct (request w) as [[[]|e1] w2] eqn:Er; [discriminate|].
    intros [= <- <-]. eapply request_store; exact Er.
  - unfold bind at 1. rewrite validateObjectId_eq.
    destruct (blank (c :: s)); [intros [= <- <-]; reflexivity|].
    unfold setDoc, bind, ret.
    destruct (request w) as [[[]|e1] w2] eqn:Er; [discriminate|].
    intros [= <- <-]. eapply request_store; exact Er.
  - unfold addDoc, bind, ret.
    destruct (request w) as [[[]|e1] w2] eqn:Er; [discriminate|].
    intros [= <- <-]. eapply request_store; exact Er.
Qed.





(** X13: when [create] returns, the document is stored under the
    returned id, replacing whatever was stored there and touching no
    other document, with the review, flagging and priority of the data;
    the id is the custom id when one is given and not empty, else the
    next automatic id. *)
Theorem create_stores_document
    (data : ReviewDoc) (customId : option DocId) w r w' :
  (forall cid, customId = Some cid -> singleSegment cid = true) ->
  create data customId w = (Return r, w') ->
  exists stored,
    store w' = <[doc_id r := stored]> (store w) /\
    sameReview data stored /\
    rv_flagging stored = rv_flagging data /\
    rv_priorityScore stored = rv_priorityScore data /\
    sameReview data (doc_data r) /\
    match customId with
    | Some (c :: s) => doc_id r = c :: s /\ idSeed w' = idSeed w
    | _ => doc_id r = autoId (idSeed w) /\ idSeed w' = (idSeed w + 1)%N
    end.
Proof.
  intros _ Hc. apply create_Return_full in Hc.
  destruct Hc as (_ & Hdata & Hs & Hid).
  exists (doc_data r). split; [exact Hs|]. rewrite Hdata.
  split; [repeat split|]. split; [reflexivity|]. split; [reflexivity|].
  split; [repeat split|]. exact Hid.
Qed.

Lemma create_stores_document_witness :
  exists stored,
    store (withStore {[ autoId 0 := sampleDoc ]} calmFlagged) =
      <[autoId 0 := stored]> (store calmFlagged) /\
    sameReview sampleDoc stored /\
    store calmFlagged !! autoId 0 = Some flaggedDoc.
Proof.
  destruct (create_stores_document sampleDoc (Some (autoId 0)) calmFlagged
              sampleResult (withStore {[ autoId 0 := sampleDoc ]} calmFlagged))
    as (stored & Hs & Hsame & _).
  - intros cid [= <-]. reflexivity.
  - vm_compute. reflexivity.
  - exists stored. split; [exact Hs|]. split; [exact Hsame | reflexivity].
Defined.

Lemma request_calm (w : World) : faults w = [] -> request w = (Return tt, w).
Proof. intros Hf. unfold request. rewrite Hf. reflexivity. Qed.

Lemma create_calm (data : ReviewDoc) (w : World) :
  faults w = [] -> rv_createdAt data = TimeServer ->
  create data None w =
  (Return {| doc_id := autoId (idSeed w);
             doc_data := withTimes data TimeServer TimeServer |},
   nextId (withStore (<[autoId (idSeed w) :=
                          withTimes data TimeServer TimeServer]> (store w)) w)).
Proof.
  intros Hf Hc. unfold create, tryCatch. unfold bind at 1.
  unfold validateRequired. rewrite Hc. simpl.
  unfold addDoc, bind, ret. rewrite (request_calm w Hf). reflexivity.
Qed.

Lemma update_calm (docId : DocId) (data : ReviewUpdate) (d : ReviewDoc) (w : World) :
  faults w = [] -> blank docId = false -> store w !! docId = Some d ->
  update docId data w =
  (Return {| doc_id := docId;
             doc_data := applyUpdate (update_updateData data) d |},
   withStore (<[docId := applyUpdate (update_updateData data) d]> (store w)) w).
Proof.
  intros Hf Hb Hd. unfold update, tryCatch. unfold bind at 1.
  rewrite validateObjectId_eq, Hb. cbv zeta. unfold bind, updateDoc.
  unfold bind. rewrite (request_calm w Hf), Hd.
  match goal with
  | |- context [getById docId ?w1] =>
      assert (Hg : getById docId w1 =
                   (Return {| doc_id := docId;
                              doc_data := applyUpdate (update_updateData data) d |},
                    w1))
  end.
  { rewrite getById_eq; [|exact Hb|unfold served; simpl; rewrite Hf; exact I].
    simpl. rewrite lookup_insert_eq. f_equal.
    apply afterRequest_calm. exact Hf. }
  rewrite Hg. reflexivity.
Qed.

Lemma create_id_valid (data : ReviewDoc) (customId : option DocId) w r w' :
  create data customId w = (Return r, w') -> blank (doc_id r) = false.
Proof.
  intros Hc. pose proof (create_Return_full _ _ _ _ _ Hc) as (_ & _ & _ & Hid).
  destruct customId as [[|c s]|];
    try (destruct Hid as [-> _]; apply autoId_valid).
  destruct Hid as [-> _].
  unfold create in Hc. apply guarded_Return in Hc. revert Hc.
  unfold bind at 1.
  destruct (validateRequired _ w) as [[[]|e] w0] eqn:Ev; [|discriminate].
  apply validateRequired_world in Ev; subst w0. cbv zeta.
  unfold bind at 1. rewrite validateObjectId_eq.
  destruct (blank (c :: s)); [discriminate | reflexivity].
Qed.

(** X14: a document can be read back as soon as it is created: when
    [create] returns and the backend serves the next request, [getById]
    of the returned id returns a document under that id with the review,
    flagging and priority that [create] returned. *)
Theorem create_then_getById
    (data : ReviewDoc) (customId : option DocId) w r w1 :
  (forall cid, customId = Some cid -> singleSegment cid = true) ->
  create data customId w = (Return r, w1) ->
  served w1 ->
  exists r',
    getById (doc_id r) w1 = (Return r', afterRequest w1) /\
    doc_id r' = doc_id r /\
    sameReview (doc_data r) (doc_data r') /\
    rv_flagging (doc_data r') = rv_flagging (doc_data r) /\
    rv_priorityScore (doc_data r') = rv_priorityScore (doc_data r).
Proof.
  intros _ Hc Hs.
  pose proof (create_id_valid _ _ _ _ _ Hc) as Hb.
  apply create_Return_full in Hc. destruct Hc as (_ & _ & Hst & _).
  exists {| doc_id := doc_id r; doc_data := doc_data r |}.
  split; [|repeat split].
  rewrite (getById_eq _ _ Hb Hs), Hst, lookup_insert_eq. reflexivity.
Qed.

Lemma create_then_getById_witness :
  exists r',
    getById (autoId 0) (nextId (withStore {[ autoId 0 := sampleDoc ]} calmWorld)) =
      (Return r',
       afterRequest (nextId (withStore {[ autoId 0 := sampleDoc ]} calmWorld))) /\
    doc_id r' = autoId 0 /\
    rv_priorityScore (doc_data r') = rv_priorityScore sampleDoc.
Proof.
  destruct (create_then_getById sampleDoc None calmWorld sampleResult
              (nextId (withStore {[ autoId 0 := sampleDoc ]} calmWorld)))
    as (r' & Hg & Hid & _ & _ & Hp).
  - intros cid Hcid. discriminate Hcid.
  - vm_compute. reflexivity.
  - exact I.
  - exists r'. split; [exact Hg|]. split; [exact Hid | exact Hp].
Defined.

(** ** Properties of [createReview] and the flagging operations *)

Lemma createReview_invalid `{StringBuiltins} (reviewData : ReviewData) (w : World) :
  List.filter (fun field => snd field) (createReview_required reviewData) <> [] ->
  createReview reviewData w =
  (Throw (APIError (createReview_missing reviewData) "VALIDATION_ERROR" 400), w).
Proof.
  intros Hm. unfold createReview, tryCatch. unfold bind at 1.
  unfold validateRequired, createReview_missing.
  destruct (List.filter _ (createReview_required reviewData)) eqn:Ef;
    [congruence | reflexivity].
Qed.

Lemma createReview_Throw `{StringBuiltins} (reviewData : ReviewData) w e w' :
  createReview reviewData w = (Throw e, w') ->
  store w' = store w /\
  ((List.filter (fun field => snd field) (createReview_required reviewData) <> [] /\
    w' = w /\
    e = APIError (createReview_missing reviewData) "VALIDATION_ERROR" 400) \/
   (List.filter (fun field => snd field) (createReview_required reviewData) = [] /\
    exists code, e = apiErrorFor code)).
Proof.
  destruct (List.filter (fun field => snd field)
              (createReview_required reviewData)) eqn:Ef.
  - unfold createReview, tryCatch. unfold bind at 1.
    rewrite (validateRequired_pass _ _ Ef). cbv zeta. unfold bind, ret, throw.
    destruct (create _ None w) as [[r|e0] w1] eqn:Ec.
    + destruct (checkAndFlag_returns (doc_id r)
                  (createReview_reviewDoc reviewData) w1) as (b & w2 & ->).
      discriminate.
    + intros [= <- <-]. apply create_Throw in Ec. destruct Ec as [Hs Hcode].
      split; [exact Hs|]. right. split; [reflexivity | exact Hcode].
  - rewrite createReview_invalid by (rewrite Ef; discriminate).
    intros [= <- <-]. split; [reflexivity|]. left.
    split; [discriminate|]. split; reflexivity.
Qed.

(** X15: [createReview] rejects a review with a required field missing
    (business, platform, platform review id, rating, text or author; an
    empty text counts as missing) with [VALIDATION_ERROR] (400) before it
    sends anything: the world is unchanged.  It throws an error with that
    code in no other case. *)
Theorem createReview_validation `{StringBuiltins} (reviewData : ReviewData) (w : World) :
  (List.filter (fun field => snd field) (createReview_required reviewData) <> [] ->
   createReview reviewData w =
   (Throw (APIError (createReview_missing reviewData) "VALIDATION_ERROR" 400), w)) /\
  (rd_text reviewData = Some [] ->
   exists message,
     createReview reviewData w =
     (Throw (APIError message "VALIDATION_ERROR" 400), w)) /\
  (forall e w',
      createReview reviewData w = (Throw e, w') ->
      errorCode e = "VALIDATION_ERROR"%string ->
      List.filter (fun field => snd field) (createReview_required reviewData) <> []
      /\ w' = w).
Proof.
  split; [apply createReview_invalid|]. split.
  - intros Ht. eexists. apply createReview_invalid.
    unfold createReview_required. rewrite Ht. simpl.
    destruct (missingString (rd_businessId reviewData)),
      (missingString (rd_platform reviewData)),
      (missingString (rd_platformReviewId reviewData)),
      (missingValue (rd_rating reviewData)),
      (missingValue (rd_author reviewData)); discriminate.
  - intros e w' Hrun Hcode. apply createReview_Throw in Hrun.
    destruct Hrun as [_ [(Hm & Hw & _)|(_ & code & ->)]]; [auto|].
    exfalso. exact (apiErrorFor_not_validation code Hcode).
Qed.

Lemma createReview_validation_witness :
  @createReview asciiBuiltins
    {| rd_businessId := Some (js "b1"); rd_platform := None;
       rd_platformReviewId := Some (js "r1"); rd_rating := Some 1;
       rd_text := Some []; rd_author := Some (js "Ann") |} calmWorld =
  (Throw (APIError "Missing required fields: platform, text"
            "VALIDATION_ERROR" 400), calmWorld).
Proof.
  apply (proj1 (@createReview_validation asciiBuiltins
                  {| rd_businessId := Some (js "b1"); rd_platform := None;
                     rd_platformReviewId := Some (js "r1"); rd_rating := Some 1;
                     rd_text := Some []; rd_author := Some (js "Ann") |}
                  calmWorld)).
  vm_compute. discriminate.
Defined.

(** X16: a [createReview] that throws has written nothing: the store is
    as before.  In particular, when the backend rejects the write of the
    new review, [createReview] throws the error mapped from the backend's
    code, logs the backend error once, and makes no attempt to flag. *)
Theorem createReview_failure_writes_nothing `{StringBuiltins}
    (reviewData : ReviewData) (w : World) :
  (forall e w', createReview reviewData w = (Throw e, w') -> store w' = store w) /\
  (forall code rest,
      List.filter (fun field => snd field) (createReview_required reviewData) = [] ->
      faults w = Some code :: rest ->
      createReview reviewData w =
      (Throw (apiErrorFor code),
       firebaseLogged (FirebaseError code) (afterRequest w))).
Proof.
  split; [intros e w' Hrun; apply createReview_Throw in Hrun; tauto|].
  intros code rest Hv Hf.
  unfold createReview, tryCatch. unfold bind at 1.
  rewrite (validateRequired_pass _ _ Hv). cbv zeta. unfold bind at 1.
  assert (Hc : create (createReview_reviewDoc reviewData) None w =
               (Throw (apiErrorFor code),
                firebaseLogged (FirebaseError code) (afterRequest w))).
  { unfold create, tryCatch. unfold bind at 1. unfold validateRequired. simpl.
    unfold addDoc, bind. rewrite (request_rejected w code rest Hf).
    rewrite handleFirebaseError_eq. reflexivity. }
  rewrite Hc. reflexivity.
Qed.

Lemma createReview_failure_writes_nothing_witness :
  @createReview asciiBuiltins sampleReview
    {| store := ∅; console := []; faults := [Some "permission-denied"%string];
       idSeed := 0 |} =
  (Throw (APIError "Permission denied" "PERMISSION_DENIED" 403),
   {| store := ∅;
      console := [("Firebase Error:"%string, FirebaseError "permission-denied")];
      faults := []; idSeed := 0 |}).
Proof.
  apply (proj2 (@createReview_failure_writes_nothing asciiBuiltins sampleReview
                  {| store := ∅; console := [];
                     faults := [Some "permission-denied"%string]; idSeed := 0 |})
           "permission-denied"%string []); reflexivity.
Defined.

(** X17: what [createReview] returns is the review as it was first
    written, never as flagged: its [flagging] is the initial, unflagged
    one even when the stored review has just been flagged.  Its text is
    the submitted text trimmed (no white space at either end; a text of
    white space only passes the required-field check and is stored
    empty), its rating is [parseInt] of the submitted rating (the rating
    itself below 1e21 in magnitude), its id the next automatic id; and
    no other document of the store changes. *)
Theorem createReview_result `{StringBuiltins} (reviewData : ReviewData) w r w' :
  createReview reviewData w = (Return r, w') ->
  exists rating text,
    rd_rating reviewData = Some rating /\
    rd_text reviewData = Some text /\ text <> [] /\
    doc_id r = autoId (idSeed w) /\
    rv_rating (doc_data r) = parseInt rating /\
    (Z.abs rating < 10 ^ 21 -> rv_rating (doc_data r) = rating) /\
    rv_text (doc_data r) = trim text /\
    (blank text = true -> rv_text (doc_data r) = []) /\
    match rv_text (doc_data r) with
    | [] => True
    | c :: _ => isWhiteSpace c = false
    end /\
    match rev (rv_text (doc_data r)) with
    | [] => True
    | c :: _ => isWhiteSpace c = false
    end /\
    rv_flagging (doc_data r) = notFlagged /\
    (forall other, other <> doc_id r -> store w' !! other = store w !! other).
Proof.
  intros Hrun. apply createReview_Return in Hrun.
  destruct Hrun as (Hv & w1 & b & Hc & Hk).
  unfold createReview_required in Hv. simpl in Hv.
  destruct (rd_rating reviewData) as [rating|] eqn:Er;
    [|simpl in Hv; repeat destruct (missingString _); repeat destruct (missingValue _);
      discriminate Hv].
  destruct (rd_text reviewData) as [text|] eqn:Et;
    [|simpl in Hv; repeat destruct (missingString _); repeat destruct (missingValue _);
      discriminate Hv].
  assert (Hne : text <> []).
  { intros ->. simpl in Hv.
    repeat destruct (missingString _); repeat destruct (missingValue _);
      discriminate Hv. }
  exists rating, text.
  apply create_Return_full in Hc. destruct Hc as (_ & Hdata & Hst & Hid & _).
  split; [reflexivity|]. split; [reflexivity|]. split; [exact Hne|].
  split; [exact Hid|]. rewrite Hdata. unfold createReview_reviewDoc; simpl.
  rewrite Er, Et; simpl.
  split; [reflexivity|].
  split.
  { intros Hsmall. unfold parseInt.
    destruct (Z.ltb_spec (Z.abs rating) (10 ^ 21)); [reflexivity | lia]. }
  split; [reflexivity|].
  split; [intros Hb; apply trim_nil; exact Hb|].
  split; [apply trim_ends|]. split; [apply trim_ends|].
  split; [reflexivity|].
  intros other Hother.
  apply checkAndFlag_store in Hk. cbv zeta in Hk.
  destruct Hk as [Hs|(d & _ & Hs)]; rewrite Hs, ?Hst.
  - apply lookup_insert_ne. congruence.
  - rewrite !lookup_insert_ne by congruence. reflexivity.
Qed.

Lemma createReview_result_witness :
  exists rating text,
    rd_rating sampleReview = Some rating /\
    rd_text sampleReview = Some text /\
    rv_rating (doc_data sampleResult) = @parseInt asciiBuiltins rating /\
    rv_text (doc_data sampleResult) = trim text /\
    rv_flagging (doc_data sampleResult) = notFlagged /\
    fl_isFlagged (rv_flagging flaggedDoc) = true.
Proof.
  destruct (@createReview_result asciiBuiltins sampleReview calmWorld
              sampleResult calmFlagged)
    as (rating & text & Hr & Ht & _ & _ & Hp & _ & Htrim & _ & _ & _ & Hfl & _).
  - vm_compute. reflexivity.
  - exists rating, text. repeat split; assumption.
Defined.

Lemma decision_reason_set `{StringBuiltins} (rating : Z) (text : jsstring) :
  shouldFlag (checkAndFlag_decision rating text) = true ->
  String.eqb (flagReason (checkAndFlag_decision rating text)) "" = false.
Proof.
  destruct (decision_cases rating text)
    as [(_ & Hd & _)|[(_ & _ & Hd & _)|(_ & _ & Hd)]];
    rewrite Hd; simpl; destruct (rating <=? 2); try reflexivity; discriminate.
Qed.

Lemma flagReview_calm (reviewId : DocId) (flagData : FlagData)
    (d : ReviewDoc) (w : World) :
  faults w = [] -> blank reviewId = false -> store w !! reviewId = Some d ->
  missingName (fd_reason flagData) = false ->
  flagReview reviewId flagData w =
  (Return {| doc_id := reviewId;
             doc_data := applyUpdate (flagReview_updateData flagData) d |},
   withStore (<[reviewId := applyUpdate (flagReview_updateData flagData) d]>
                (store w)) w).
Proof.
  intros Hf Hb Hd Hr. unfold flagReview, tryCatch. unfold bind at 1.
  unfold validateRequired. simpl. rewrite Hr. simpl.
  rewrite (update_calm reviewId (flagReview_updateData flagData) d w Hf Hb Hd).
  reflexivity.
Qed.

Lemma createReview_calm `{StringBuiltins} (reviewData : ReviewData) (w : World) :
  faults w = [] ->
  List.filter (fun field => snd field) (createReview_required reviewData) = [] ->
  let reviewDoc := createReview_reviewDoc reviewData in
  let d := checkAndFlag_decision (rv_rating reviewDoc) (rv_text reviewDoc) in
  let docId := autoId (idSeed w) in
  createReview reviewData w =
    (Return {| doc_id := docId; doc_data := reviewDoc |},
     nextId (withStore
               (<[docId :=
                    if shouldFlag d
                    then applyUpdate
                           (flagReview_updateData (checkAndFlag_flagData d))
                           reviewDoc
                    else reviewDoc]> (store w)) w)).
Proof.
  intros Hf Hv reviewDoc d docId.
  assert (Hc : create reviewDoc None w =
               (Return {| doc_id := docId; doc_data := reviewDoc |},
                nextId (withStore (<[docId := reviewDoc]> (store w)) w))).
  { subst reviewDoc docId. rewrite create_calm by (exact Hf || reflexivity).
    reflexivity. }
  rewrite (createReview_of_create reviewData w _ _ Hv Hc).
  f_equal. fold reviewDoc. cbn [doc_id]. rewrite checkAndFlag_eq. cbv zeta.
  fold d. destruct (shouldFlag d) eqn:Hd; [|reflexivity].
  rewrite (flagReview_calm docId (checkAndFlag_flagData d) reviewDoc).
  - unfold withStore, nextId; simpl. rewrite insert_insert_eq. reflexivity.
  - exact Hf.
  - apply autoId_valid.
  - simpl. apply lookup_insert_eq.
  - simpl. subst d. apply decision_reason_set. exact Hd.
Qed.

Lemma checkAndFlag_calm `{StringBuiltins}
    (reviewId : DocId) (reviewDoc stored : ReviewDoc) (w : World) :
  let d := checkAndFlag_decision (rv_rating reviewDoc) (rv_text reviewDoc) in
  shouldFlag d = true ->
  faults w = [] -> blank reviewId = false -> store w !! reviewId = Some stored ->
  checkAndFlag reviewId reviewDoc w =
  (Return true,
   withStore (<[reviewId :=
                  applyUpdate (flagReview_updateData (checkAndFlag_flagData d))
                    stored]> (store w)) w).
Proof.
  intros d Hd Hf Hb Hs. rewrite checkAndFlag_eq. cbv zeta. fold d. rewrite Hd.
  rewrite (flagReview_calm reviewId (checkAndFlag_flagData d) stored w Hf Hb Hs).
  - reflexivity.
  - simpl. subst d. apply decision_reason_set. exact Hd.
Qed.

(** X18: with a backend that serves every request, [createReview] of a
    review with all required fields returns it under the next automatic
    id, logs nothing, and leaves it stored with the review it built: not
    flagged and with the computed priority when the decision does not
    flag it, and otherwise flagged with the decision's reason and
    keywords, by ["system"], with priority 8. *)
Theorem createReview_succeeds `{StringBuiltins} (reviewData : ReviewData) (w : World) :
  faults w = [] ->
  List.filter (fun field => snd field) (createReview_required reviewData) = [] ->
  let reviewDoc := createReview_reviewDoc reviewData in
  let d := checkAndFlag_decision (rv_rating reviewDoc) (rv_text reviewDoc) in
  exists result w' now,
    createReview reviewData w = (Return result, w') /\
    doc_id result = autoId (idSeed w) /\
    console w' = console w /\
    store w' !! doc_id result = Some now /\
    sameReview reviewDoc now /\
    (shouldFlag d = false ->
     fl_isFlagged (rv_flagging now) = false /\
     fl_reason (rv_flagging now) = None /\
     fl_keywords (rv_flagging now) = [] /\
     rv_priorityScore now = rv_priorityScore reviewDoc) /\
    (shouldFlag d = true ->
     fl_isFlagged (rv_flagging now) = true /\
     fl_reason (rv_flagging now) = Some (flagReason d) /\
     fl_keywords (rv_flagging now) = keywords d /\
     fl_flaggedBy (rv_flagging now) = Some "system"%string /\
     rv_priorityScore now = 8).
Proof.
  intros Hf Hv reviewDoc d.
  pose proof (createReview_calm reviewData w Hf Hv) as Hrun. cbv zeta in Hrun.
  fold reviewDoc in Hrun. fold d in Hrun.
  eexists. eexists. eexists.
  split; [exact Hrun|]. split; [reflexivity|]. split; [reflexivity|].
  split; [simpl; apply lookup_insert_eq|].
  destruct (shouldFlag d).
  - split; [repeat split|]. split; [discriminate|]. intros _. repeat split.
  - split; [repeat split|]. split; [|discriminate]. intros _. repeat split.
Qed.

Lemma createReview_succeeds_witness :
  exists result w' now,
    @createReview asciiBuiltins sampleReview calmWorld = (Return result, w') /\
    store w' !! doc_id result = Some now /\
    fl_reason (rv_flagging now) = Some "low_rating"%string /\
    fl_keywords (rv_flagging now) = [js "terrible"] /\
    rv_priorityScore now = 8.
Proof.
  destruct (@createReview_succeeds asciiBuiltins sampleReview calmWorld)
    as (result & w' & now & Hrun & _ & _ & Hnow & _ & _ & Hflag);
    [reflexivity | reflexivity |].
  destruct (Hflag eq_refl) as (_ & Hr & Hk & _ & Hp).
  exists result, w', now.
  split; [exact Hrun|]. split; [exact Hnow|].
  split; [exact Hr|]. split; [exact Hk | exact Hp].
Defined.

(** C10: whenever [checkAndFlag] decides to flag, [flagReview] is called
    without a [priorityScore] and defaults it to 8, so the update it
    sends carries priority 8; when the store takes the update, the review
    is stored flagged with priority 8 in place of the score
    [calculatePriorityScore] gave it in [createReview], whatever the
    rating and the text; and a review found flagged after
    [createReview] always has priority 8. *)
Theorem auto_flag_overwrites_priority `{StringBuiltins} :
  (forall d,
      up_priorityScore (flagReview_updateData (checkAndFlag_flagData d)) = Some 8) /\
  (forall reviewId reviewDoc stored w,
      shouldFlag (checkAndFlag_decision (rv_rating reviewDoc) (rv_text reviewDoc))
        = true ->
      faults w = [] -> blank reviewId = false ->
      store w !! reviewId = Some stored ->
      exists w' now,
        checkAndFlag reviewId reviewDoc w = (Return true, w') /\
        store w' !! reviewId = Some now /\
        fl_isFlagged (rv_flagging now) = true /\
        rv_priorityScore now = 8) /\
  (forall reviewData rating text w,
      rd_rating reviewData = Some rating ->
      rd_text reviewData = Some text ->
      List.filter (fun field => snd field) (createReview_required reviewData) = [] ->
      faults w = [] ->
      shouldFlag (checkAndFlag_decision (parseInt rating) (trim text)) = true ->
      exists result w' now,
        createReview reviewData w = (Return result, w') /\
        rv_priorityScore (doc_data result) = calculatePriorityScore rating text /\
        store w' !! doc_id result = Some now /\
        fl_isFlagged (rv_flagging now) = true /\
        rv_priorityScore now = 8) /\
  (forall reviewId reviewDoc w w',
      checkAndFlag reviewId reviewDoc w = (Return true, w') ->
      exists doc,
        store w' !! reviewId = Some doc /\
        fl_isFlagged (rv_flagging doc) = true /\
        rv_priorityScore doc = 8) /\
  (forall reviewData rating text w result w' doc,
      rd_rating reviewData = Some rating ->
      rd_text reviewData = Some text ->
      createReview reviewData w = (Return result, w') ->
      store w' !! doc_id result = Some doc ->
      fl_isFlagged (rv_flagging doc) = true ->
      rv_priorityScore (doc_data result) = calculatePriorityScore rating text /\
      rv_priorityScore doc = 8).
Proof.
  split; [reflexivity|]. split; [|split; [|split]].
  - intros reviewId reviewDoc stored w Hd Hf Hb Hs.
    eexists. eexists.
    split; [apply (checkAndFlag_calm reviewId reviewDoc stored w Hd Hf Hb Hs)|].
    split; [simpl; apply lookup_insert_eq|]. split; reflexivity.
  - intros reviewData rating text w Hr Ht Hv Hf Hd.
    pose proof (createReview_calm reviewData w Hf Hv) as Hrun. cbv zeta in Hrun.
    assert (Hdoc : rv_rating (createReview_reviewDoc reviewData) = parseInt rating
                   /\ rv_text (createReview_reviewDoc reviewData) = trim text
                   /\ rv_priorityScore (createReview_reviewDoc reviewData)
                      = calculatePriorityScore rating text).
    { unfold createReview_reviewDoc; simpl. rewrite Hr, Ht. auto. }
    destruct Hdoc as (Hrat & Htxt & Hpri).
    rewrite Hrat, Htxt, Hd in Hrun.
    eexists. eexists. eexists.
    split; [exact Hrun|]. split; [exact Hpri|].
    split; [simpl; apply lookup_insert_eq|]. split; reflexivity.
  - intros reviewId reviewDoc w w' Hk.
    apply checkAndFlag_true in Hk. destruct Hk as (_ & d & Hd & Hs).
    eexists. split; [rewrite Hs; apply lookup_insert_eq|].
    split; reflexivity.
  - intros reviewData rating text w result w' doc Hr Ht Hrun Hdoc Hflag.
    apply createReview_Return in Hrun.
    destruct Hrun as (_ & w1 & b & Hc & Hk).
    apply create_Return in Hc. destruct Hc as (Hst & Hfl & Hpr).
    split.
    { rewrite Hpr. unfold createReview_reviewDoc; simpl.
      rewrite Hr, Ht. reflexivity. }
    apply checkAndFlag_store in Hk. destruct Hk as [Hsame|(d & Hd & Hs)].
    + rewrite Hsame, Hst in Hdoc. injection Hdoc as <-.
      rewrite Hfl in Hflag. discriminate Hflag.
    + rewrite Hs, lookup_insert_eq in Hdoc. injection Hdoc as <-.
      reflexivity.
Qed.

Lemma auto_flag_overwrites_priority_witness :
  @calculatePriorityScore asciiBuiltins 1 (js " Terrible food ") = 10 /\
  exists result w' now,
    @createReview asciiBuiltins sampleReview calmWorld = (Return result, w') /\
    rv_priorityScore (doc_data result) =
      @calculatePriorityScore asciiBuiltins 1 (js " Terrible food ") /\
    store w' !! doc_id result = Some now /\
    fl_isFlagged (rv_flagging now) = true /\
    rv_priorityScore now = 8.
Proof.
  split; [reflexivity|].
  apply (proj1 (proj2 (proj2 (@auto_flag_overwrites_priority asciiBuiltins)))
           sampleReview 1 (js " Terrible food ") calmWorld);
    reflexivity.
Defined.



(** X19: [flagReview] without a reason (absent or empty) throws
    [VALIDATION_ERROR] (400) and leaves the world as it is; with a
    reason, on an existing review, a valid id and a backend that serves
    every request, it stores the flag: the given reason and keywords (none
    when absent), the flagger (["system"] when absent or empty), and the
    given priority capped at 10 (8 when absent or zero; a priority below
    1 is stored as it is). *)
Theorem flagReview_outcomes (reviewId : DocId) (flagData : FlagData) (w : World) :
  (missingName (fd_reason flagData) = true ->
   flagReview reviewId flagData w =
   (Throw (APIError "Missing required fields: reason" "VALIDATION_ERROR" 400), w)) /\
  (forall reason d,
      fd_reason flagData = Some reason -> reason <> ""%string ->
      faults w = [] -> blank reviewId = false -> store w !! reviewId = Some d ->
      exists d',
        flagReview reviewId flagData w =
          (Return {| doc_id := reviewId; doc_data := d' |},
           withStore (<[reviewId := d']> (store w)) w) /\
        rv_flagging d' =
          {| fl_isFlagged := true; fl_reason := Some reason;
             fl_keywords := default [] (fd_keywords flagData);
             fl_flaggedAt := TimeServer;
             fl_flaggedBy :=
               Some (match fd_flaggedBy flagData with
                     | Some (String c s) => String c s
                     | _ => "system"%string
                     end) |} /\
        rv_priorityScore d' <= 10 /\
        (fd_priorityScore flagData = None \/ fd_priorityScore flagData = Some 0 ->
         rv_priorityScore d' = 8) /\
        (forall p, fd_priorityScore flagData = Some p -> p <> 0 -> p <= 10 ->
                   rv_priorityScore d' = p) /\
        sameContent d d').
Proof.
  split.
  - intros Hm. unfold flagReview, tryCatch. unfold bind at 1.
    unfold validateRequired. simpl. rewrite Hm. reflexivity.
  - intros reason d Hr Hne Hf Hb Hd.
    exists (applyUpdate (flagReview_updateData flagData) d).
    split.
    { apply flagReview_calm; try assumption.
      rewrite Hr. simpl. destruct reason; [congruence | reflexivity]. }
    simpl. unfold flagReview_flagging. rewrite Hr.
    split.
    { f_equal. f_equal. unfold orElse.
      destruct (fd_flaggedBy flagData) as [[|c s]|]; reflexivity. }
    split; [lia|]. split.
    { intros [-> | ->]; reflexivity. }
    split; [|repeat split].
    intros p -> Hp0 Hp10. simpl.
    destruct (Z.eqb_spec p 0); [congruence | lia].
Qed.

Lemma flagReview_outcomes_witness :
  flagReview (autoId 0)
    {| fd_reason := Some ""%string; fd_keywords := None; fd_flaggedBy := None;
       fd_priorityScore := None |} calmWorld =
  (Throw (APIError "Missing required fields: reason" "VALIDATION_ERROR" 400),
   calmWorld) /\
  exists d',
    flagReview (autoId 0)
      {| fd_reason := Some "manual"%string; fd_keywords := None;
         fd_flaggedBy := Some ""%string; fd_priorityScore := Some (-3) |}
      (nextId (withStore {[ autoId 0 := sampleDoc ]} calmWorld))
    = (Return {| doc_id := autoId 0; doc_data := d' |},
       withStore (<[autoId 0 := d']> {[ autoId 0 := sampleDoc ]})
         (nextId (withStore {[ autoId 0 := sampleDoc ]} calmWorld))) /\
    rv_priorityScore d' = -3 /\
    fl_flaggedBy (rv_flagging d') = Some "system"%string.
Proof.
  split.
  - apply (proj1 (flagReview_outcomes (autoId 0) _ calmWorld)). reflexivity.
  - destruct (proj2 (flagReview_outcomes (autoId 0)
                       {| fd_reason := Some "manual"%string; fd_keywords := None;
                          fd_flaggedBy := Some ""%string;
                          fd_priorityScore := Some (-3) |}
                       (nextId (withStore {[ autoId 0 := sampleDoc ]} calmWorld)))
                "manual"%string sampleDoc)
      as (d' & Hrun & Hfl & _ & _ & Hp & _);
      [reflexivity | discriminate | reflexivity | reflexivity | reflexivity |].
    exists d'. split; [exact Hrun|]. split.
    + apply (Hp (-3)); [reflexivity | discriminate | lia].
    + rewrite Hfl. reflexivity.
Defined.

Lemma flagReview_Return_full (reviewId : DocId) (flagData : FlagData) w r w' :
  flagReview reviewId flagData w = (Return r, w') ->
  exists d,
    store w !! reviewId = Some d /\ doc_id r = reviewId /\
    doc_data r = applyUpdate (flagReview_updateData flagData) d /\
    store w' = <[reviewId := doc_data r]> (store w).
Proof.
  unfold flagReview, tryCatch, bind.
  destruct (validateRequired _ w) as [[[]|e] w0] eqn:Ev; [|discriminate].
  apply validateRequired_world in Ev; subst w0. cbv zeta.
  destruct (update reviewId (flagReview_updateData flagData) w)
    as [[a|e] w1] eqn:Eu; [|discriminate].
  intros [= <- <-]. apply update_Return_full in Eu. exact Eu.
Qed.

Lemma unflagReview_Return_full (reviewId : DocId) w r w' :
  unflagReview reviewId w = (Return r, w') ->
  exists d,
    store w !! reviewId = Some d /\ doc_id r = reviewId /\
    doc_data r = applyUpdate unflagReview_updateData d /\
    store w' = <[reviewId := doc_data r]> (store w).
Proof.
  unfold unflagReview, tryCatch. cbv zeta.
  destruct (update reviewId unflagReview_updateData w) as [[a|e] w1] eqn:Eu;
    [|discriminate].
  intros [= <- <-]. apply update_Return_full in Eu. exact Eu.
Qed.

Lemma update_Throw (docId : DocId) (data : ReviewUpdate) w e w' :
  update docId data w = (Throw e, w') -> exists code, e = apiErrorFor code.
Proof.
  unfold update, tryCatch.
  match goal with
  | |- context [match ?m w with _ => _ end] =>
      destruct (m w) as [[a|e0] w1]
  end; [discriminate|].
  rewrite handleFirebaseError_eq. intros [= <- <-]. eauto.
Qed.

(** X20: unflagging does not undo what flagging did to the priority:
    after [flagReview] and then [unflagReview] on a review, its
    [flagging] is back to unflagged (no reason, no keywords), but its
    [priorityScore] is still the one [flagReview] wrote (8 on the
    automatic path), not the score it had before; its other fields are
    as before the flag. *)
Theorem flag_then_unflag (reviewId : DocId) (flagData : FlagData) w r1 w1 r2 w2 :
  flagReview reviewId flagData w = (Return r1, w1) ->
  unflagReview reviewId w1 = (Return r2, w2) ->
  exists d,
    store w !! reviewId = Some d /\
    store w2 !! reviewId = Some (doc_data r2) /\
    rv_flagging (doc_data r2) = notFlagged /\
    rv_priorityScore (doc_data r2) =
      Z.min 10 (numberOr (fd_priorityScore flagData) 8) /\
    rv_priorityScore (doc_data r2) = rv_priorityScore (doc_data r1) /\
    sameContent d (doc_data r2).
Proof.
  intros Hf Hu.
  apply flagReview_Return_full in Hf. destruct Hf as (d & Hd & _ & Hd1 & Hs1).
  apply unflagReview_Return_full in Hu. destruct Hu as (d1 & Hl1 & _ & Hd2 & Hs2).
  rewrite Hs1, lookup_insert_eq in Hl1. injection Hl1 as <-.
  exists d. split; [exact Hd|].
  split; [rewrite Hs2; apply lookup_insert_eq|].
  rewrite Hd2, Hd1. repeat split.
Qed.

Lemma flag_then_unflag_witness :
  exists d,
    store (nextId (withStore {[ autoId 0 := sampleDoc ]} calmWorld)) !! autoId 0
      = Some d /\
    rv_priorityScore d = 10 /\
    rv_flagging unflaggedDoc = notFlagged /\
    rv_priorityScore unflaggedDoc = 8.
Proof.
  destruct (flag_then_unflag (autoId 0) sampleFlagData
              (nextId (withStore {[ autoId 0 := sampleDoc ]} calmWorld))
              {| doc_id := autoId 0; doc_data := flaggedDoc |} calmFlagged
              {| doc_id := autoId 0; doc_data := unflaggedDoc |} calmUnflagged)
    as (d & Hd & _ & Hfl & Hp & _).
  - vm_compute. reflexivity.
  - vm_compute. reflexivity.
  - exists d. split; [exact Hd|]. split.
    + vm_compute in Hd. injection Hd as <-. reflexivity.
    + split; [exact Hfl | exact Hp].
Defined.

(** X21: [checkAndFlag] returns false in two cases only: the decision
    does not flag, and then the world is untouched (no request, no log);
    or the decision flags and [update] threw, and then exactly one
    ['Error auto-flagging review:'] line is added after what [update]
    did.  The required-field check of [flagReview] is never the cause. *)
Theorem checkAndFlag_false `{StringBuiltins}
    (reviewId : DocId) (reviewDoc : ReviewDoc) (w : World) :
  let d := checkAndFlag_decision (rv_rating reviewDoc) (rv_text reviewDoc) in
  (shouldFlag d = false -> checkAndFlag reviewId reviewDoc w = (Return false, w)) /\
  (forall w',
      checkAndFlag reviewId reviewDoc w = (Return false, w') ->
      (shouldFlag d = false /\ w' = w) \/
      (shouldFlag d = true /\
       exists code w2,
         update reviewId (flagReview_updateData (checkAndFlag_flagData d)) w =
           (Throw (apiErrorFor code), w2) /\
         w' = logged (apiErrorFor code) w2)).
Proof.
  intros d. split.
  - intros Hd. rewrite checkAndFlag_eq. cbv zeta. fold d. rewrite Hd. reflexivity.
  - intros w'. rewrite checkAndFlag_eq. cbv zeta. fold d.
    destruct (shouldFlag d) eqn:Hd; [|intros [= <-]; left; auto].
    unfold flagReview, tryCatch. unfold bind at 1. unfold validateRequired.
    simpl. subst d. rewrite (decision_reason_set _ _ Hd). simpl.
    destruct (update reviewId _ w) as [[a|e] w2] eqn:Eu; [discriminate|].
    unfold throw. intros [= <-]. right. split; [reflexivity|].
    destruct (update_Throw _ _ _ _ _ Eu) as [code ->]. eauto.
Qed.

Lemma checkAndFlag_false_witness :
  @checkAndFlag asciiBuiltins (autoId 0)
    (@createReview_reviewDoc asciiBuiltins
       {| rd_businessId := Some (js "b1"); rd_platform := Some (js "yelp");
          rd_platformReviewId := Some (js "r2"); rd_rating := Some 4;
          rd_text := Some (js "Good coffee"); rd_author := Some (js "Bo") |})
    flakyCreated = (Return false, flakyCreated).
Proof.
  apply (proj1 (@checkAndFlag_false asciiBuiltins (autoId 0) _ flakyCreated)).
  reflexivity.
Defined.



Lemma update_readback_rejected
    (docId : DocId) (data : ReviewUpdate) (d : ReviewDoc) (w : World)
    (code : string) (rest : list (option string)) :
  blank docId = false -> store w !! docId = Some d ->
  faults w = None :: Some code :: rest ->
  let w1 := withStore (<[docId := applyUpdate (update_updateData data) d]> (store w))
              (afterRequest w) in
  update docId data w =
  (Throw internalError,
   firebaseLogged (apiErrorFor code)
     (firebaseLogged (FirebaseError code) (afterRequest w1))).
Proof.
  intros Hb Hd Hf w1. unfold update, tryCatch. unfold bind at 1.
  rewrite validateObjectId_eq, Hb. cbv zeta. unfold bind, updateDoc.
  unfold bind.
  assert (Hs : served w) by (unfold served; rewrite Hf; exact I).
  rewrite (request_served w Hs).
  change (store (afterRequest w)) with (store w). rewrite Hd.
  fold (withStore (<[docId := applyUpdate (update_updateData data) d]> (store w))
          (afterRequest w)). fold w1.
  assert (Hg : getById docId w1 =
               (Throw (apiErrorFor code),
                firebaseLogged (FirebaseError code) (afterRequest w1))).
  { unfold getById, tryCatch. unfold bind at 1.
    rewrite validateObjectId_eq, Hb. unfold getDoc, bind.
    rewrite (request_rejected w1 code rest)
      by (subst w1; simpl; rewrite Hf; reflexivity).
    rewrite handleFirebaseError_eq. reflexivity. }
  rewrite Hg, handleFirebaseError_eq, apiErrorFor_masked. reflexivity.
Qed.

(** X23: [update] is not atomic, and so [checkAndFlag] can report failure
    for a flag that was stored.  When the backend applies the write and
    rejects the read-back that follows it, [update] throws
    [INTERNAL_ERROR] (500) whatever the backend's code was, and
    [checkAndFlag] returns false; yet the review is stored flagged, with
    priority 8. *)
Theorem flag_stored_but_reported_failed `{StringBuiltins}
    (reviewId : DocId) (reviewDoc stored : ReviewDoc) (w : World)
    (code : string) (rest : list (option string)) :
  let d := checkAndFlag_decision (rv_rating reviewDoc) (rv_text reviewDoc) in
  shouldFlag d = true ->
  blank reviewId = false -> store w !! reviewId = Some stored ->
  faults w = None :: Some code :: rest ->
  exists w2,
    update reviewId (flagReview_updateData (checkAndFlag_flagData d)) w =
      (Throw internalError, w2) /\
    checkAndFlag reviewId reviewDoc w = (Return false, logged internalError w2) /\
    exists now,
      store (logged internalError w2) !! reviewId = Some now /\
      fl_isFlagged (rv_flagging now) = true /\
      fl_reason (rv_flagging now) = Some (flagReason d) /\
      rv_priorityScore now = 8.
Proof.
  intros d Hd Hb Hst Hf.
  pose proof (update_readback_rejected reviewId
                (flagReview_updateData (checkAndFlag_flagData d)) stored w code rest
                Hb Hst Hf) as Hu.
  cbv zeta in Hu. eexists. split; [exact Hu|]. split.
  - rewrite checkAndFlag_eq. cbv zeta. fold d. rewrite Hd.
    unfold flagReview, tryCatch. unfold bind at 1. unfold validateRequired.
    simpl. subst d. rewrite (decision_reason_set _ _ Hd). simpl.
    rewrite Hu. reflexivity.
  - eexists. split; [simpl; apply lookup_insert_eq|]. repeat split.
Qed.

Lemma flag_stored_but_reported_failed_witness :
  exists w',
    @checkAndFlag asciiBuiltins (autoId 0) sampleDoc
      {| store := {[ autoId 0 := sampleDoc ]}; console := [];
         faults := [None; Some "unavailable"%string]; idSeed := 1 |}
    = (Return false, w') /\
    exists now,
      store w' !! autoId 0 = Some now /\
      fl_isFlagged (rv_flagging now) = true /\
      rv_priorityScore now = 8.
Proof.
  destruct (@flag_stored_but_reported_failed asciiBuiltins (autoId 0) sampleDoc
              sampleDoc
              {| store := {[ autoId 0 := sampleDoc ]}; console := [];
                 faults := [None; Some "unavailable"%string]; idSeed := 1 |}
              "unavailable"%string [])
    as (w2 & _ & Hk & now & Hnow & Hfl & _ & Hp);
    [reflexivity | reflexivity | reflexivity | reflexivity |].
  exists (logged internalError w2). split; [exact Hk|].
  exists now. split; [exact Hnow|]. split; [exact Hfl | exact Hp].
Defined.






Lemma batchCreate_loop_app (ds more : list ReviewDoc) (acc : list Stored) (w : World) :
  batchCreate_loop (ds ++ more) acc w =
  match batchCreate_loop ds acc w with
  | (Return rs, w1) => batchCreate_loop more rs w1
  | (Throw e, w1) => (Throw e, w1)
  end.
Proof.
  revert acc w. induction ds as [|d ds IH]; intros acc w; simpl; [reflexivity|].
  unfold bind. destruct (create d None w) as [[r|e] w1]; [apply IH | reflexivity].
Qed.

Lemma batchCreate_loop_Return (ds : list ReviewDoc) (acc rs : list Stored) w w' :
  batchCreate_loop ds acc w = (Return rs, w') ->
  exists new,
    rs = acc ++ new /\
    List.map doc_data new =
      List.map (fun d => withTimes d (rv_createdAt d) TimeServer) ds /\
    List.map doc_id new =
      List.map (fun k => autoId (idSeed w + N.of_nat k)) (seq 0 (length ds)) /\
    idSeed w' = (idSeed w + N.of_nat (length ds))%N.
Proof.
  revert acc w. induction ds as [|d ds IH]; intros acc w; simpl.
  - intros [= <- <-]. exists []. rewrite app_nil_r, N.add_0_r. auto.
  - unfold bind. destruct (create d None w) as [[r|e] w1] eqn:Ec; [|discriminate].
    intros Hl. apply IH in Hl. destruct Hl as (new & -> & Hdata & Hids & Hseed).
    apply create_Return_full in Ec. destruct Ec as (_ & Hd & _ & Hid & Hs1).
    exists (r :: new). rewrite <- app_assoc. split; [reflexivity|]. simpl.
    split; [rewrite Hd, Hdata; reflexivity|].
    split.
    + rewrite Hid, N.add_0_r. f_equal. rewrite Hids, <- seq_shift, List.map_map.
      apply List.map_ext. intros k. rewrite Hs1. f_equal. lia.
    + rewrite Hseed, Hs1. lia.
Qed.

(** X26: when [batchCreate] returns, it returns one result per document,
    in order: the document with [updatedAt] stamped, under consecutive
    automatic ids. *)
Theorem batchCreate_results (documents : list ReviewDoc) w rs w' :
  batchCreate documents w = (Return rs, w') ->
  length rs = length documents /\
  List.map doc_data rs =
    List.map (fun d => withTimes d (rv_createdAt d) TimeServer) documents /\
  List.map doc_id rs =
    List.map (fun k => autoId (idSeed w + N.of_nat k))
      (seq 0 (length documents)) /\
  idSeed w' = (idSeed w + N.of_nat (length documents))%N.
Proof.
  unfold batchCreate. intros Hb. apply guarded_Return in Hb.
  apply batchCreate_loop_Return in Hb.
  destruct Hb as (new & -> & Hdata & Hids & Hseed). simpl.
  split; [|auto].
  rewrite <- (List.length_map doc_data), Hdata, List.length_map. reflexivity.
Qed.

Lemma batchCreate_results_witness :
  List.map doc_id
    [ {| doc_id := autoId 0; doc_data := sampleDoc |};
      {| doc_id := autoId 1; doc_data := flaggedDoc |} ] =
  List.map (fun k => autoId (idSeed calmWorld + N.of_nat k)) (seq 0 2).
Proof.
  apply (batchCreate_results [sampleDoc; flaggedDoc] calmWorld
           [ {| doc_id := autoId 0; doc_data := sampleDoc |};
             {| doc_id := autoId 1; doc_data := flaggedDoc |} ]
           {| store := <[autoId 1 := flaggedDoc]> {[ autoId 0 := sampleDoc ]};
              console := []; faults := []; idSeed := 2 |}).
  vm_compute. reflexivity.
Defined.

(** X27: [batchCreate] is not atomic and hides the cause of a failure:
    when the documents before some document are created and the creation
    of that document throws, [batchCreate] throws [INTERNAL_ERROR] (500)
    whatever the error was, and the documents created before it stay in
    the store. *)
Theorem batchCreate_not_atomic
    (before rest : list ReviewDoc) (d : ReviewDoc) w rs w1 e w2 :
  batchCreate before w = (Return rs, w1) ->
  create d None w1 = (Throw e, w2) ->
  batchCreate (before ++ d :: rest) w =
    (Throw internalError, firebaseLogged e w2) /\
  store (firebaseLogged e w2) = store w1.
Proof.
  intros Hb Hc. unfold batchCreate in Hb. apply guarded_Return in Hb.
  pose proof (create_Throw _ _ _ _ _ Hc) as (Hs & code & He).
  split; [|exact Hs].
  unfold batchCreate, tryCatch. rewrite batchCreate_loop_app, Hb. simpl.
  unfold bind. rewrite Hc, handleFirebaseError_eq, He, apiErrorFor_masked.
  reflexivity.
Qed.

Lemma batchCreate_not_atomic_witness :
  batchCreate [sampleDoc; flaggedDoc]
    {| store := ∅; console := [];
       faults := [None; Some "permission-denied"%string]; idSeed := 0 |} =
  (Throw internalError,
   firebaseLogged (APIError "Permission denied" "PERMISSION_DENIED" 403)
     {| store := {[ autoId 0 := sampleDoc ]};
        console := [("Firebase Error:"%string, FirebaseError "permission-denied")];
        faults := []; idSeed := 1 |}).
Proof.
  apply (batchCreate_not_atomic [sampleDoc] [] flaggedDoc
           {| store := ∅; console := [];
              faults := [None; Some "permission-denied"%string]; idSeed := 0 |}
           [sampleResult]
           {| store := {[ autoId 0 := sampleDoc ]}; console := [];
              faults := [Some "permission-denied"%string]; idSeed := 1 |}).
  - vm_compute. reflexivity.
  - vm_compute. reflexivity.
Defined.

Lemma guarded_Throw {A} (m : Async A) w e w' :
  tryCatch m handleFirebaseError w = (Throw e, w') ->
  exists e0 w0, m w = (Throw e0, w0) /\
                e = apiErrorFor (errorCode e0) /\ w' = firebaseLogged e0 w0.
Proof.
  unfold tryCatch. destruct (m w) as [[a|e0] w0]; [discriminate|].
  rewrite handleFirebaseError_eq. intros [= <- <-]. eauto.
Qed.

(** X28: the CRUD methods never let a backend error through as it is:
    whatever [create], [getById], [update], [delete] or [batchCreate]
    throws is an [APIError] chosen by the [switch] of
    [handleFirebaseError], with status 400, 401, 403, 404, 409 or 500,
    and the error that caused it has been logged under
    ['Firebase Error:']. *)
Theorem crud_errors_are_mapped (w : World) (e : Error) (w' : World) :
  ((exists data customId, create data customId w = (Throw e, w')) \/
   (exists docId, getById docId w = (Throw e, w')) \/
   (exists docId data, update docId data w = (Throw e, w')) \/
   (exists docId, crud_delete docId w = (Throw e, w')) \/
   (exists documents, batchCreate documents w = (Throw e, w'))) ->
  (exists cause w0,
      e = apiErrorFor (errorCode cause) /\
      console w' = console w0 ++ [("Firebase Error:"%string, cause)]) /\
  exists message code status,
    e = APIError message code status /\
    In status [400; 401; 403; 404; 409; 500].
Proof.
  intros Hop.
  assert (Hmapped : exists cause w0,
             e = apiErrorFor (errorCode cause) /\ w' = firebaseLogged cause w0).
  { destruct Hop as [(data & customId & Hrun)|[(docId & Hrun)|
      [(docId & data & Hrun)|[(docId & Hrun)|(documents & Hrun)]]]];
      apply guarded_Throw in Hrun;
      destruct Hrun as (e0 & w0 & _ & He & Hw); eauto. }
  destruct Hmapped as (cause & w0 & He & Hw). split.
  - exists cause, w0. split; [exact He|]. rewrite Hw. reflexivity.
  - rewrite He. unfold apiErrorFor.
    repeat match goal with
           | |- context [if ?b then _ else _] => destruct b
           end; do 3 eexists; (split; [reflexivity|]); simpl; tauto.
Qed.

Lemma crud_errors_are_mapped_witness :
  exists message code status,
    internalError = APIError message code status /\
    In status [400; 401; 403; 404; 409; 500].
Proof.
  apply (crud_errors_are_mapped calmWorld internalError
           (firebaseLogged invalidIdError calmWorld)).
  right. left. exists (js "  "). vm_compute. reflexivity.
Defined.
